(** * checkUserExists: the existence-check Lambda handlers

    A shallow embedding of [checkUserExists/main.go] in both of its
    versions: the gateway-proxy handler, which receives an API Gateway
    event and answers with an [APIGatewayProxyResponse], and the
    direct-return handler, which receives the raw payload and answers with
    a [Response] struct.

    The handlers call four collaborators that live outside the
    repository: [encoding/json], [config.LoadDefaultConfig],
    [dynamodb.NewFromConfig] / [Client.Query] and [log.Printf].  The JSON
    decoder is deterministic and is modelled executably, following the Go
    standard library; the configuration loader and the table store are the
    environment and are passed to the handlers as an [Env] of outcomes;
    every call made to a collaborator is recorded in a trace. *)

From Stdlib Require Import String Ascii List ZArith Bool Lia.
Import ListNotations.
Open Scope string_scope.
Open Scope Z_scope.
Set Warnings "-register-all".

(** ** Bytes

    A Go [string] or [[]byte] is a sequence of 8-bit bytes; so is a Rocq
    [string]. *)

Definition byte_val (c : ascii) : Z := Z.of_N (N_of_ascii c).

(** Go's conversion [byte(x)]: the low eight bits. *)
Definition to_byte (x : Z) : ascii := ascii_of_N (Z.to_N (Z.land x 255)).

(** The byte 34, the double quote. *)
Abbreviation dquote := (Ascii false true false false false true false false).

(** [s] between double quotes. *)
Definition quoted (s : string) : string :=
  String dquote (s ++ String dquote EmptyString).

Definition in_range (lo hi : Z) (c : ascii) : bool :=
  (lo <=? byte_val c) && (byte_val c <=? hi).

Fixpoint drop (n : nat) (s : string) : string :=
  match n, s with
  | O, _ => s
  | S _, EmptyString => EmptyString
  | S n', String _ r => drop n' r
  end.

(** ** Package [unicode/utf8] and [unicode/utf16] *)

Module utf8.

Definition RuneError : Z := 0xFFFD.
Definition RuneSelf : Z := 0x80.
Definition MaxRune : Z := 0x10FFFF.
Definition surrogateMin : Z := 0xD800.
Definition surrogateMax : Z := 0xDFFF.

(** [EncodeRune]: the UTF-8 encoding of a rune; a surrogate or a value
    out of range is encoded as [RuneError]. *)
Definition encode3 (r : Z) : string :=
  String (to_byte (Z.lor 0xE0 (Z.shiftr r 12)))
    (String (to_byte (Z.lor 0x80 (Z.land (Z.shiftr r 6) 0x3F)))
       (String (to_byte (Z.lor 0x80 (Z.land r 0x3F))) EmptyString)).

Definition EncodeRune (r : Z) : string :=
  if (0 <=? r) && (r <=? 0x7F) then String (to_byte r) EmptyString
  else if (0 <=? r) && (r <=? 0x7FF) then
    String (to_byte (Z.lor 0xC0 (Z.shiftr r 6)))
      (String (to_byte (Z.lor 0x80 (Z.land r 0x3F))) EmptyString)
  else if (r <? 0) || (MaxRune <? r)
          || ((surrogateMin <=? r) && (r <=? surrogateMax))
  then encode3 RuneError
  else if r <=? 0xFFFF then encode3 r
  else
    String (to_byte (Z.lor 0xF0 (Z.shiftr r 18)))
      (String (to_byte (Z.lor 0x80 (Z.land (Z.shiftr r 12) 0x3F)))
         (String (to_byte (Z.lor 0x80 (Z.land (Z.shiftr r 6) 0x3F)))
            (String (to_byte (Z.lor 0x80 (Z.land r 0x3F))) EmptyString))).

(** The table [first] with [acceptRanges]: for a leading byte, the
    length of the sequence and the range its second byte must lie in;
    [None] for a byte that starts no sequence of two bytes or more. *)
Definition first (p0 : ascii) : option (nat * Z * Z) :=
  let b := byte_val p0 in
  if (0xC2 <=? b) && (b <=? 0xDF) then Some (2%nat, 0x80, 0xBF)
  else if b =? 0xE0 then Some (3%nat, 0xA0, 0xBF)
  else if (0xE1 <=? b) && (b <=? 0xEC) then Some (3%nat, 0x80, 0xBF)
  else if b =? 0xED then Some (3%nat, 0x80, 0x9F)
  else if (0xEE <=? b) && (b <=? 0xEF) then Some (3%nat, 0x80, 0xBF)
  else if b =? 0xF0 then Some (4%nat, 0x90, 0xBF)
  else if (0xF1 <=? b) && (b <=? 0xF3) then Some (4%nat, 0x80, 0xBF)
  else if b =? 0xF4 then Some (4%nat, 0x80, 0x8F)
  else None.

Definition cont (c : ascii) : bool := in_range 0x80 0xBF c.

(** [DecodeRune]: the first rune of [p] and its width in bytes; an
    invalid or truncated encoding gives [(RuneError, 1)], the empty
    input [(RuneError, 0)]. *)
Definition DecodeRune (p : string) : Z * nat :=
  match p with
  | EmptyString => (RuneError, 0%nat)
  | String p0 rest =>
      if byte_val p0 <? RuneSelf then (byte_val p0, 1%nat)
      else
        match first p0 with
        | None => (RuneError, 1%nat)
        | Some (sz, lo, hi) =>
            match rest with
            | EmptyString => (RuneError, 1%nat)
            | String b1 rest1 =>
                if negb (in_range lo hi b1) then (RuneError, 1%nat)
                else if (sz <=? 2)%nat then
                  (Z.lor (Z.shiftl (Z.land (byte_val p0) 0x1F) 6)
                         (Z.land (byte_val b1) 0x3F), 2%nat)
                else
                  match rest1 with
                  | EmptyString => (RuneError, 1%nat)
                  | String b2 rest2 =>
                      if negb (cont b2) then (RuneError, 1%nat)
                      else if (sz <=? 3)%nat then
                        (Z.lor (Z.lor
                           (Z.shiftl (Z.land (byte_val p0) 0x0F) 12)
                           (Z.shiftl (Z.land (byte_val b1) 0x3F) 6))
                           (Z.land (byte_val b2) 0x3F), 3%nat)
                      else
                        match rest2 with
                        | EmptyString => (RuneError, 1%nat)
                        | String b3 _ =>
                            if negb (cont b3) then (RuneError, 1%nat)
                            else
                              (Z.lor (Z.lor (Z.lor
                                 (Z.shiftl (Z.land (byte_val p0) 0x07) 18)
                                 (Z.shiftl (Z.land (byte_val b1) 0x3F) 12))
                                 (Z.shiftl (Z.land (byte_val b2) 0x3F) 6))
                                 (Z.land (byte_val b3) 0x3F), 4%nat)
                        end
                  end
            end
        end
  end.

End utf8.

Module utf16.

Definition surr1 : Z := 0xD800.
Definition surr2 : Z := 0xDC00.
Definition surr3 : Z := 0xE000.
Definition surrSelf : Z := 0x10000.

Definition IsSurrogate (r : Z) : bool := (surr1 <=? r) && (r <? surr3).

(** [DecodeRune]: the code point of a surrogate pair, or the
    replacement character when the pair is not valid. *)
Definition DecodeRune (r1 r2 : Z) : Z :=
  if (surr1 <=? r1) && (r1 <? surr2) && (surr2 <=? r2) && (r2 <? surr3)
  then Z.lor (Z.shiftl (r1 - surr1) 10) (r2 - surr2) + surrSelf
  else utf8.RuneError.

End utf16.

(** ** Go values shared by the collaborators *)

(** A Go [error] value.  The two decoding errors of [encoding/json] are
    kept apart; every other error (configuration, store) carries its
    message. *)
Inductive error : Type :=
| SyntaxError
| UnmarshalTypeError (Value : string)
| OtherError (msg : string).

(** A Go result pair [(v, err)] of a call that either yields a value with
    a nil error or fails. *)
Inductive result (A : Type) : Type :=
| Ok (v : A)
| Err (err : error).
Arguments Ok {A} v.
Arguments Err {A} err.

(** ** Package [encoding/json] *)

Module json.

(** A JSON text after scanning; strings and keys are unquoted, a
    number keeps its literal. *)
Inductive value : Type :=
| Null
| Bool (b : bool)
| Number (lit : string)
| Str (s : string)
| Array (elems : list value)
| Object (members : list (string * value)).

Definition isSpace (c : ascii) : bool :=
  match c with
  | " "%char | "009"%char | "013"%char | "010"%char => true
  | _ => false
  end.

Fixpoint skipSpace (s : string) : string :=
  match s with
  | String c r => if isSpace c then skipSpace r else s
  | EmptyString => s
  end.

Definition isDigit (c : ascii) : bool := in_range 48 57 c.
Definition isDigit19 (c : ascii) : bool := in_range 49 57 c.

Definition isHex (c : ascii) : bool :=
  in_range 48 57 c || in_range 97 102 c || in_range 65 70 c.

(** *** Scanner: string literals

    The scanner states [stateInString], [stateInStringEsc] and
    [stateInStringEscU], [..U1], [..U12], [..U123] (the number of hex
    digits still expected). *)
Inductive strState : Type :=
| InString
| InStringEsc
| InStringEscU (left : nat).

Definition push (c : ascii) (r : option (string * string))
  : option (string * string) :=
  match r with
  | Some (body, rest) => Some (String c body, rest)
  | None => None
  end.

(** [scanString st s]: [s] follows the opening quote; the result is the
    raw body of the literal and the input after the closing quote. *)
Fixpoint scanString (st : strState) (s : string)
  : option (string * string) :=
  match s with
  | EmptyString => None
  | String c r =>
      match st with
      | InString =>
          match c with
          | dquote => Some (EmptyString, r)
          | "\"%char => push c (scanString InStringEsc r)
          | _ => if byte_val c <? 32 then None
                 else push c (scanString InString r)
          end
      | InStringEsc =>
          match c with
          | "b"%char | "f"%char | "n"%char | "r"%char | "t"%char
          | "\"%char | "/"%char | dquote =>
              push c (scanString InString r)
          | "u"%char => push c (scanString (InStringEscU 4) r)
          | _ => None
          end
      | InStringEscU k =>
          if isHex c then
            match k with
            | O | S O => push c (scanString InString r)
            | S k' => push c (scanString (InStringEscU k') r)
            end
          else None
      end
  end.

(** *** Scanner: number literals

    The states [stateNeg], [state0], [state1], [stateDot], [stateDot0],
    [stateE], [stateESign] and [stateE0]; [NumBegin] is the start of the
    value. *)
Inductive numState : Type :=
| NumBegin | Neg | Zero | Int1 | Dot | Dot0 | Exp | ESign | E0.

Definition isE (c : ascii) : bool :=
  match c with "e"%char | "E"%char => true | _ => false end.

Definition numStep (st : numState) (c : ascii) : option numState :=
  match st with
  | NumBegin =>
      match c with
      | "-"%char => Some Neg
      | "0"%char => Some Zero
      | _ => if isDigit19 c then Some Int1 else None
      end
  | Neg =>
      match c with
      | "0"%char => Some Zero
      | _ => if isDigit19 c then Some Int1 else None
      end
  | Zero =>
      match c with
      | "."%char => Some Dot
      | _ => if isE c then Some Exp else None
      end
  | Int1 =>
      if isDigit c then Some Int1
      else match c with
           | "."%char => Some Dot
           | _ => if isE c then Some Exp else None
           end
  | Dot => if isDigit c then Some Dot0 else None
  | Dot0 =>
      if isDigit c then Some Dot0
      else if isE c then Some Exp else None
  | Exp =>
      match c with
      | "+"%char | "-"%char => Some ESign
      | _ => if isDigit c then Some E0 else None
      end
  | ESign => if isDigit c then Some E0 else None
  | E0 => if isDigit c then Some E0 else None
  end.

(** The states in which a number may end. *)
Definition numFinal (st : numState) : bool :=
  match st with
  | Zero | Int1 | Dot0 | E0 => true
  | _ => false
  end.

Fixpoint scanNumber (st : numState) (s : string)
  : option (string * string) :=
  match s with
  | EmptyString =>
      if numFinal st then Some (EmptyString, EmptyString) else None
  | String c r =>
      match numStep st c with
      | Some st' => push c (scanNumber st' r)
      | None => if numFinal st then Some (EmptyString, s) else None
      end
  end.

(** *** Unquoting ([unquoteBytes]) *)

Definition hexVal (c : ascii) : Z :=
  if in_range 48 57 c then byte_val c - 48
  else if in_range 97 102 c then byte_val c - 97 + 10
  else if in_range 65 70 c then byte_val c - 65 + 10
  else -1.

(** [getu4]: the rune of a leading [\uXXXX], or [-1]. *)
Definition getu4 (s : string) : Z :=
  match s with
  | String "\" (String "u" (String h1 (String h2 (String h3 (String h4 _))))) =>
      if isHex h1 && isHex h2 && isHex h3 && isHex h4 then
        hexVal h1 * 4096 + hexVal h2 * 256 + hexVal h3 * 16 + hexVal h4
      else -1
  | _ => -1
  end.

Definition app_opt (pre : string) (r : option string) : option string :=
  match r with
  | Some t => Some (pre ++ t)
  | None => None
  end.

Definition byte1 (c : ascii) : string := String c EmptyString.

(** The loop of [unquoteBytes] over the body of a literal: one
    iteration per escape, ASCII byte or rune; [fuel] bounds the number
    of iterations and the length of the body is enough, as every
    iteration consumes at least one byte. *)
Fixpoint unquoteLoop (fuel : nat) (s : string) : option string :=
  match fuel with
  | O => match s with EmptyString => Some EmptyString | _ => None end
  | S fuel' =>
      match s with
      | EmptyString => Some EmptyString
      | String "\" EmptyString => None
      | String "\" (String e r) =>
          match e with
          | dquote | "\"%char | "/"%char | "'"%char =>
              app_opt (byte1 e) (unquoteLoop fuel' r)
          | "b"%char => app_opt (byte1 "008"%char) (unquoteLoop fuel' r)
          | "f"%char => app_opt (byte1 "012"%char) (unquoteLoop fuel' r)
          | "n"%char => app_opt (byte1 "010"%char) (unquoteLoop fuel' r)
          | "r"%char => app_opt (byte1 "013"%char) (unquoteLoop fuel' r)
          | "t"%char => app_opt (byte1 "009"%char) (unquoteLoop fuel' r)
          | "u"%char =>
              let rr := getu4 s in
              if rr <? 0 then None
              else
                let s1 := drop 6 s in
                if utf16.IsSurrogate rr then
                  let dec := utf16.DecodeRune rr (getu4 s1) in
                  if negb (dec =? utf8.RuneError) then
                    app_opt (utf8.EncodeRune dec)
                            (unquoteLoop fuel' (drop 6 s1))
                  else
                    app_opt (utf8.EncodeRune utf8.RuneError)
                            (unquoteLoop fuel' s1)
                else
                  app_opt (utf8.EncodeRune rr) (unquoteLoop fuel' s1)
          | _ => None
          end
      | String c r =>
          if (byte_val c =? 34) || (byte_val c <? 32) then None
          else if byte_val c <? utf8.RuneSelf then
            app_opt (byte1 c) (unquoteLoop fuel' r)
          else
            let '(rr, size) := utf8.DecodeRune s in
            app_opt (utf8.EncodeRune rr) (unquoteLoop fuel' (drop size s))
      end
  end.

Definition unquote (body : string) : option string :=
  unquoteLoop (String.length body) body.

(** *** Parsing a JSON text

    [checkValid] accepts one JSON value between optional white space; a
    value may be nested [maxNestingDepth] containers deep.  The three
    functions below follow the grammar the scanner accepts and build the
    value on the way; [depth] is the number of open containers. *)

Definition maxNestingDepth : Z := 10000.

Definition literal (lit : string) (v : value) (s : string)
  : option (value * string) :=
  if prefix lit s then Some (v, drop (String.length lit) s) else None.

(** The input after the byte [c], when the input starts with it. *)
Definition expect (c : ascii) (s : string) : option string :=
  match s with
  | String c' r => if (c' =? c)%char then Some r else None
  | EmptyString => None
  end.

(** A string literal after its opening quote: the unquoted string and
    the input after the closing quote. *)
Definition parseString (s : string) : option (string * string) :=
  match scanString InString s with
  | Some (body, r) =>
      match unquote body with
      | Some t => Some (t, r)
      | None => None
      end
  | None => None
  end.

Fixpoint parseValue (fuel : nat) (depth : Z) (s : string) {struct fuel}
  : option (value * string) :=
  match fuel with
  | O => None
  | S fuel' =>
      match skipSpace s with
      | EmptyString => None
      | String c r as s0 =>
          if (c =? "{")%char then
            if maxNestingDepth <? depth + 1 then None
            else
              match expect "}" (skipSpace r) with
              | Some r' => Some (Object [], r')
              | None =>
                  match parseMembers fuel' (depth + 1) r with
                  | Some (ms, r') => Some (Object ms, r')
                  | None => None
                  end
              end
          else if (c =? "[")%char then
            if maxNestingDepth <? depth + 1 then None
            else
              match expect "]" (skipSpace r) with
              | Some r' => Some (Array [], r')
              | None =>
                  match parseElements fuel' (depth + 1) r with
                  | Some (vs, r') => Some (Array vs, r')
                  | None => None
                  end
              end
          else if (c =? dquote)%char then
            match parseString r with
            | Some (t, r') => Some (Str t, r')
            | None => None
            end
          else if (c =? "t")%char then literal "true" (Bool true) s0
          else if (c =? "f")%char then literal "false" (Bool false) s0
          else if (c =? "n")%char then literal "null" Null s0
          else
            match scanNumber NumBegin s0 with
            | Some (lit, r') => Some (Number lit, r')
            | None => None
            end
      end
  end

with parseElements (fuel : nat) (depth : Z) (s : string) {struct fuel}
  : option (list value * string) :=
  match fuel with
  | O => None
  | S fuel' =>
      match parseValue fuel' depth s with
      | Some (v, r) =>
          match expect "," (skipSpace r) with
          | Some r' =>
              match parseElements fuel' depth r' with
              | Some (vs, r'') => Some (v :: vs, r'')
              | None => None
              end
          | None =>
              match expect "]" (skipSpace r) with
              | Some r' => Some ([v], r')
              | None => None
              end
          end
      | None => None
      end
  end

with parseMembers (fuel : nat) (depth : Z) (s : string) {struct fuel}
  : option (list (string * value) * string) :=
  match fuel with
  | O => None
  | S fuel' =>
      match expect dquote (skipSpace s) with
      | Some r =>
          match parseString r with
          | Some (key, r1) =>
              match expect ":" (skipSpace r1) with
              | Some r2 =>
                  match parseValue fuel' depth r2 with
                  | Some (v, r3) =>
                      match expect "," (skipSpace r3) with
                      | Some r4 =>
                          match parseMembers fuel' depth r4 with
                          | Some (ms, r5) => Some ((key, v) :: ms, r5)
                          | None => None
                          end
                      | None =>
                          match expect "}" (skipSpace r3) with
                          | Some r4 => Some ([(key, v)], r4)
                          | None => None
                          end
                      end
                  | None => None
                  end
              | None => None
              end
          | None => None
          end
      | None => None
      end
  end.

(** Every call of the three functions above that is nested in another
    comes after at least one more byte of input was consumed, or is a call
    from [parseElements] or [parseMembers] to [parseValue]: twice the
    length of the input bounds the nesting. *)
Definition fuelFor (s : string) : nat := (2 * String.length s + 2)%nat.

(** [parse data]: the value of a valid JSON text, [None] for a text
    [checkValid] rejects with a [SyntaxError]. *)
Definition parse (data : string) : option value :=
  match parseValue (fuelFor data) 0 data with
  | Some (v, rest) =>
      match skipSpace rest with
      | EmptyString => Some v
      | _ => None
      end
  | None => None
  end.

(** *** Decoding into a struct

    [Unmarshal] matches the keys of an object to the fields of the target
    struct, "preferring an exact match but also accepting a
    case-insensitive match".  [foldName] is the folding of ASCII letters;
    the names used here have no letter with a fold outside ASCII. *)

Definition foldByte (c : ascii) : ascii :=
  if in_range 97 122 c then to_byte (byte_val c - 32) else c.

Fixpoint foldName (s : string) : string :=
  match s with
  | EmptyString => EmptyString
  | String c r => String (foldByte c) (foldName r)
  end.

Definition matchField (name key : string) : bool :=
  (key =? name)%string || (foldName key =? foldName name)%string.

(** Only the first error of a decoding is kept ([saveError]). *)
Definition saveError (saved : option error) (err : error) : option error :=
  match saved with
  | Some _ => saved
  | None => Some err
  end.

(** Storing a JSON value into a field of Go type [string]: a string is
    stored, [null] leaves the field as it is, anything else is an
    [UnmarshalTypeError]. *)
Definition storeString (v : value) (cur : string) (saved : option error)
  : string * option error :=
  match v with
  | Str s => (s, saved)
  | Null => (cur, saved)
  | Bool _ => (cur, saveError saved (UnmarshalTypeError "bool"))
  | Number _ => (cur, saveError saved (UnmarshalTypeError "number"))
  | Array _ => (cur, saveError saved (UnmarshalTypeError "array"))
  | Object _ => (cur, saveError saved (UnmarshalTypeError "object"))
  end.

(** The members of an object decoded, in order, into a struct whose only
    field has type [string] and the JSON name [name]; members with another
    key are skipped. *)
Fixpoint objectInto (name : string) (ms : list (string * value))
  (cur : string) (saved : option error) : string * option error :=
  match ms with
  | [] => (cur, saved)
  | (key, v) :: rest =>
      if matchField name key then
        let '(cur', saved') := storeString v cur saved in
        objectInto name rest cur' saved'
      else objectInto name rest cur saved
  end.

(** A JSON value decoded into such a struct: an object is decoded member
    by member, [null] has no effect, and no other value fits a struct. *)
Definition valueInto (name : string) (v : value) (cur : string)
  : string * option error :=
  match v with
  | Object ms => objectInto name ms cur None
  | Null => (cur, None)
  | Bool _ => (cur, Some (UnmarshalTypeError "bool"))
  | Number _ => (cur, Some (UnmarshalTypeError "number"))
  | Str _ => (cur, Some (UnmarshalTypeError "string"))
  | Array _ => (cur, Some (UnmarshalTypeError "array"))
  end.

(** [Unmarshal(data, &v)] for such a struct [v]: the new value of the
    field and the error returned. *)
Definition UnmarshalInto (name : string) (data : string) (cur : string)
  : string * option error :=
  match parse data with
  | None => (cur, Some SyntaxError)
  | Some v => valueInto name v cur
  end.

End json.

(** ** The AWS SDK types the handlers use *)

Module context.

(** A [context.Context]; the handlers only pass contexts on. *)
Inductive Context : Type :=
| Background
| TODO.

End context.

Module aws.

(** [aws.Config]: the resolved region and credentials. *)
Record Config : Type := mkConfig {
  Region : string;
  Credentials : string
}.

(** [aws.String(v)]: a pointer to [v]; [None] is the nil pointer. *)
Definition String (v : string) : option string := Some v.

End aws.

Module types.

(** [types.AttributeValue] with its members. *)
Inductive AttributeValue : Type :=
| AttributeValueMemberS (Value : string)
| AttributeValueMemberN (Value : string)
| AttributeValueMemberB (Value : string)
| AttributeValueMemberBOOL (Value : bool)
| AttributeValueMemberNULL (Value : bool)
| AttributeValueMemberSS (Value : list string)
| AttributeValueMemberNS (Value : list string)
| AttributeValueMemberBS (Value : list string)
| AttributeValueMemberL (Value : list AttributeValue)
| AttributeValueMemberM (Value : list (string * AttributeValue)).

End types.

Module dynamodb.

(** An item, or a key: [map[string]types.AttributeValue]. *)
Definition Item : Type := list (string * types.AttributeValue).

Record Client : Type := mkClient {
  options : aws.Config
}.

(** [dynamodb.QueryInput]; the fields the handlers leave unset keep
    their zero value. *)
Record QueryInput : Type := mkQueryInput {
  TableName : option string;
  IndexName : option string;
  KeyConditionExpression : option string;
  ExpressionAttributeValues : list (string * types.AttributeValue);
  FilterExpression : option string;
  ExclusiveStartKey : Item;
  Limit : option Z
}.

(** [dynamodb.QueryOutput]: one page of results; a non-empty
    [LastEvaluatedKey] says that the store has more pages. *)
Record QueryOutput : Type := mkQueryOutput {
  Items : list Item;
  Count : Z;
  ScannedCount : Z;
  LastEvaluatedKey : Item
}.

End dynamodb.

Module events.

Module APIGatewayProxyRequest.
Record t : Type := mk {
  Resource : string;
  Path : string;
  HTTPMethod : string;
  Headers : list (string * string);
  Body : string;
  IsBase64Encoded : bool
}.
End APIGatewayProxyRequest.

Module APIGatewayProxyResponse.
Record t : Type := mk {
  StatusCode : Z;
  Headers : list (string * string);
  Body : string;
  IsBase64Encoded : bool
}.
End APIGatewayProxyResponse.

End events.

(** ** The environment and the trace of calls *)

(** What the collaborators outside the program answer: the outcome of
    loading the SDK configuration and, for every query, the outcome of the
    store. *)
Record Env : Type := mkEnv {
  env_LoadDefaultConfig : context.Context -> result aws.Config;
  env_Query : dynamodb.Client -> context.Context -> dynamodb.QueryInput ->
              result dynamodb.QueryOutput
}.

(** An argument of [log.Printf]. *)
Inductive LogArg : Type :=
| ArgString (s : string)
| ArgError (err : error).

(** The calls a program makes to these collaborators.  [EvWrite] is a
    call of one of the client's writing operations ([PutItem],
    [UpdateItem], [DeleteItem], ...), named by [operation], on an item or
    a key of a table. *)
Inductive Event : Type :=
| EvPrintf (format : string) (args : list LogArg)
| EvLoadDefaultConfig (ctx : context.Context)
| EvNewFromConfig (cfg : aws.Config)
| EvQuery (db : dynamodb.Client) (ctx : context.Context)
          (input : dynamodb.QueryInput)
| EvWrite (db : dynamodb.Client) (ctx : context.Context)
          (operation : string) (tableName : option string)
          (item : dynamodb.Item).

(** A computation reads the environment and extends the trace. *)
Definition M (A : Type) : Type := Env -> list Event -> A * list Event.

Definition ret {A : Type} (a : A) : M A := fun _ t => (a, t).

Definition bind {A B : Type} (c : M A) (k : A -> M B) : M B :=
  fun env t => let '(a, t') := c env t in k a env t'.

Definition emit (ev : Event) : M unit := fun _ t => (tt, (t ++ [ev])%list).

Declare Scope go_scope.
Delimit Scope go_scope with go.
Notation "x <- c ;; k" := (bind c (fun x => k))
  (at level 61, c at next level, right associativity) : go_scope.
Notation "c ;; k" := (bind c (fun _ => k))
  (at level 61, right associativity) : go_scope.
Open Scope go_scope.

Module log.

Definition Printf (format : string) (args : list LogArg) : M unit :=
  emit (EvPrintf format args).

End log.

Module config.

Definition LoadDefaultConfig (ctx : context.Context)
  : M (result aws.Config) :=
  fun env t => (env_LoadDefaultConfig env ctx, (t ++ [EvLoadDefaultConfig ctx])%list).

End config.

(** [dynamodb.NewFromConfig(cfg)]. *)
Definition NewFromConfig (cfg : aws.Config) : M dynamodb.Client :=
  emit (EvNewFromConfig cfg) ;; ret (dynamodb.mkClient cfg).

Module Client.

(** [db.Query(ctx, input)]: one request to the store, one page back. *)
Definition Query (db : dynamodb.Client) (ctx : context.Context)
  (input : dynamodb.QueryInput) : M (result dynamodb.QueryOutput) :=
  fun env t => (env_Query env db ctx input, (t ++ [EvQuery db ctx input])%list).

End Client.

(** [len] of a slice, as a Go [int]. *)
Definition len {A : Type} (l : list A) : Z := Z.of_nat (List.length l).

(** ** The gateway-proxy handler (first version of [main.go]) *)

Module GatewayProxy.

(** [Request] represents the JSON input. *)
Record Request : Type := mkRequest {
  Email : string
}.

(** [Response] represents the JSON output. *)
Record Response : Type := mkResponse {
  Exists : bool
}.

(** [json.Unmarshal(data, &req)] at type [Request], whose field [Email]
    has the tag [json:"email"]. *)
Definition Unmarshal (data : string) (req : Request)
  : Request * option error :=
  let '(email, err) := json.UnmarshalInto "email" data (Email req) in
  ({| Email := email |}, err).

(** [json.Marshal] at type [Response], whose field [Exists] has the tag
    [json:"exists"]. *)
Definition Marshal (r : Response) : string :=
  if Exists r then "{" ++ quoted "exists" ++ ":true}"
  else "{" ++ quoted "exists" ++ ":false}".

Definition UserExists (email : string) (db : dynamodb.Client)
  (tableName : string) : M bool :=
  log.Printf "Checking if user exists: %s in table %s"
             [ArgString email; ArgString tableName] ;;
  let indexName := "email-index" in
  let input :=
    {| dynamodb.TableName := aws.String tableName;
       dynamodb.IndexName := aws.String indexName;
       dynamodb.KeyConditionExpression := aws.String "email = :email";
       dynamodb.ExpressionAttributeValues :=
         [(":email", types.AttributeValueMemberS email)];
       dynamodb.FilterExpression := None;
       dynamodb.ExclusiveStartKey := [];
       dynamodb.Limit := None |} in
  r <- Client.Query db context.TODO input ;;
  match r with
  | Err err =>
      log.Printf "Error fetching item from DynamoDB: %v" [ArgError err] ;;
      ret false
  | Ok result =>
      if len (dynamodb.Items result) >? 0 then
        log.Printf "User found: %s" [ArgString email] ;;
        ret true
      else
        log.Printf "User not found: %s" [ArgString email] ;;
        ret false
  end.

Definition handler (ctx : context.Context)
  (event : events.APIGatewayProxyRequest.t)
  : M (events.APIGatewayProxyResponse.t * option error) :=
  let req := {| Email := "" |} in
  let '(req, err) := Unmarshal (events.APIGatewayProxyRequest.Body event) req in
  match err with
  | Some _ =>
      ret ({| events.APIGatewayProxyResponse.StatusCode := 400;
              events.APIGatewayProxyResponse.Headers := [];
              events.APIGatewayProxyResponse.Body := "Invalid request";
              events.APIGatewayProxyResponse.IsBase64Encoded := false |},
           None)
  | None =>
      c <- config.LoadDefaultConfig ctx ;;
      match c with
      | Err err =>
          log.Printf "Error loading AWS config: %v" [ArgError err] ;;
          ret ({| events.APIGatewayProxyResponse.StatusCode := 500;
                  events.APIGatewayProxyResponse.Headers := [];
                  events.APIGatewayProxyResponse.Body := "Server error";
                  events.APIGatewayProxyResponse.IsBase64Encoded := false |},
               None)
      | Ok cfg =>
          db <- NewFromConfig cfg ;;
          exists_ <- UserExists (Email req) db "troggle_user" ;;
          let respBody := Marshal {| Exists := exists_ |} in
          ret ({| events.APIGatewayProxyResponse.StatusCode := 200;
                  events.APIGatewayProxyResponse.Headers := [];
                  events.APIGatewayProxyResponse.Body := respBody;
                  events.APIGatewayProxyResponse.IsBase64Encoded := false |},
               None)
      end
  end.

End GatewayProxy.

(** ** The direct-return handler (second version of [main.go]) *)

Module DirectReturn.

(** [Request] represents the JSON input. *)
Record Request : Type := mkRequest {
  Email : string
}.

(** [Response] represents the JSON output. *)
Record Response : Type := mkResponse {
  StatusCode : Z;
  Exists : bool;
  Message : string
}.

(** [json.Unmarshal(data, &req)] at type [Request], whose field [Email]
    has the tag [json:"email"]. *)
Definition Unmarshal (data : string) (req : Request)
  : Request * option error :=
  let '(email, err) := json.UnmarshalInto "email" data (Email req) in
  ({| Email := email |}, err).

Definition UserExists (email : string) (db : dynamodb.Client)
  (tableName : string) : M (bool * string) :=
  let existsMsg := "User exists" in
  let notExistsMsg := "User does not exist" in
  log.Printf "Checking if user exists: %s in table %s"
             [ArgString email; ArgString tableName] ;;
  let indexName := "email-index" in
  let input :=
    {| dynamodb.TableName := aws.String tableName;
       dynamodb.IndexName := aws.String indexName;
       dynamodb.KeyConditionExpression := aws.String "email = :email";
       dynamodb.ExpressionAttributeValues :=
         [(":email", types.AttributeValueMemberS email)];
       dynamodb.FilterExpression := None;
       dynamodb.ExclusiveStartKey := [];
       dynamodb.Limit := None |} in
  r <- Client.Query db context.TODO input ;;
  match r with
  | Err err =>
      log.Printf "Error fetching item from DynamoDB: %v" [ArgError err] ;;
      ret (false, notExistsMsg)
  | Ok result =>
      if len (dynamodb.Items result) >? 0 then
        log.Printf "User found: %s" [ArgString email] ;;
        ret (true, existsMsg)
      else
        log.Printf "User not found: %s" [ArgString email] ;;
        ret (false, notExistsMsg)
  end.

Definition handler (ctx : context.Context) (payload : string)
  : M (Response * option error) :=
  let req := {| Email := "" |} in
  let '(req, err) := Unmarshal payload req in
  match err with
  | Some _ =>
      ret ({| StatusCode := 400;
              Exists := false;
              Message := "Invalid request" |}, err)
  | None =>
      c <- config.LoadDefaultConfig ctx ;;
      match c with
      | Err err =>
          log.Printf "Error loading AWS config: %v" [ArgError err] ;;
          ret ({| StatusCode := 500;
                  Exists := false;
                  Message := "Server error" |}, Some err)
      | Ok cfg =>
          db <- NewFromConfig cfg ;;
          em <- UserExists (Email req) db "troggle_user" ;;
          let '(exists_, msg) := em in
          ret ({| StatusCode := 200;
                  Exists := exists_;
                  Message := msg |}, None)
      end
  end.

End DirectReturn.

(** ** Observations on a trace *)



(** The queries sent to the store, in order. *)
Fixpoint queries (t : list Event) : list dynamodb.QueryInput :=
  match t with
  | [] => []
  | EvQuery _ _ input :: t' => input :: queries t'
  | _ :: t' => queries t'
  end.


(** A run from the empty trace: the value returned and the calls made. *)
Definition run {A : Type} (c : M A) (env : Env) : A * list Event := c env [].

(** The query both versions of [UserExists] build for an email and a
    table. *)
Definition userQuery (email tableName : string) : dynamodb.QueryInput :=
  {| dynamodb.TableName := Some tableName;
     dynamodb.IndexName := Some "email-index";
     dynamodb.KeyConditionExpression := Some "email = :email";
     dynamodb.ExpressionAttributeValues :=
       [(":email", types.AttributeValueMemberS email)];
     dynamodb.FilterExpression := None;
     dynamodb.ExclusiveStartKey := [];
     dynamodb.Limit := None |}.

(** The response of the gateway-proxy handler with a status and a body. *)
Definition proxyResponse (status : Z) (body : string)
  : events.APIGatewayProxyResponse.t :=
  {| events.APIGatewayProxyResponse.StatusCode := status;
     events.APIGatewayProxyResponse.Headers := [];
     events.APIGatewayProxyResponse.Body := body;
     events.APIGatewayProxyResponse.IsBase64Encoded := false |}.

(** A gateway event that carries [body]. *)
Definition proxyRequest (body : string) : events.APIGatewayProxyRequest.t :=
  {| events.APIGatewayProxyRequest.Resource := "/checkUserExists";
     events.APIGatewayProxyRequest.Path := "/checkUserExists";
     events.APIGatewayProxyRequest.HTTPMethod := "POST";
     events.APIGatewayProxyRequest.Headers := [];
     events.APIGatewayProxyRequest.Body := body;
     events.APIGatewayProxyRequest.IsBase64Encoded := false |}.

(** Does an object have a member with exactly this key? *)
Definition hasKey (name : string) (ms : list (string * json.value)) : bool :=
  existsb (fun kv => (fst kv =? name)%string) ms.

(** Does an object have a member whose key the decoder matches to the
    field [name]? *)
Definition hasField (name : string) (ms : list (string * json.value))
  : bool :=
  existsb (fun kv => json.matchField name (fst kv)) ms.

Definition isObject (v : json.value) : bool :=
  match v with json.Object _ => true | _ => false end.

Definition isNull (v : json.value) : bool :=
  match v with json.Null => true | _ => false end.

(** ** Sample payloads and environments *)

(** The JSON object with one member, the string [v] under the key [key]. *)
Definition objectPayload (key v : string) : string :=
  "{" ++ quoted key ++ ":" ++ quoted v ++ "}".

(** The JSON array with one element, the string [v]. *)
Definition arrayPayload (v : string) : string :=
  "[" ++ quoted v ++ "]".


Definition sampleConfig : aws.Config :=
  {| aws.Region := "us-east-1"; aws.Credentials := "default" |}.

Definition sampleItem (email : string) : dynamodb.Item :=
  [("user_id", types.AttributeValueMemberS "u-1");
   ("email", types.AttributeValueMemberS email)].

(** A store with one user, [alice@example.com], found under the index
    [email-index] of the table [troggle_user]. *)
Definition sampleQuery (_ : dynamodb.Client) (_ : context.Context)
  (input : dynamodb.QueryInput) : result dynamodb.QueryOutput :=
  match dynamodb.TableName input, dynamodb.IndexName input,
        dynamodb.ExpressionAttributeValues input with
  | Some "troggle_user", Some "email-index",
    [(":email", types.AttributeValueMemberS "alice@example.com")] =>
      Ok {| dynamodb.Items := [sampleItem "alice@example.com"];
            dynamodb.Count := 1;
            dynamodb.ScannedCount := 1;
            dynamodb.LastEvaluatedKey := [] |}
  | Some "troggle_user", Some "email-index", _ =>
      Ok {| dynamodb.Items := [];
            dynamodb.Count := 0;
            dynamodb.ScannedCount := 0;
            dynamodb.LastEvaluatedKey := [] |}
  | _, _, _ => Err (OtherError "ResourceNotFoundException")
  end.

Definition sampleEnv : Env :=
  {| env_LoadDefaultConfig := fun _ => Ok sampleConfig;
     env_Query := sampleQuery |}.

(** The store cannot be reached. *)
Definition storeDownEnv : Env :=
  {| env_LoadDefaultConfig := fun _ => Ok sampleConfig;
     env_Query := fun _ _ _ => Err (OtherError "RequestError: send request failed") |}.

(** No credentials can be resolved. *)
Definition noConfigEnv : Env :=
  {| env_LoadDefaultConfig :=
       fun _ => Err (OtherError "failed to load shared config");
     env_Query := sampleQuery |}.

(** A page without items, and an environment whose store answers every
    query with it: no record matches. *)
Definition emptyPage : dynamodb.QueryOutput :=
  {| dynamodb.Items := [];
     dynamodb.Count := 0;
     dynamodb.ScannedCount := 0;
     dynamodb.LastEvaluatedKey := [] |}.

Definition withEmptyStore (env : Env) : Env :=
  {| env_LoadDefaultConfig := env_LoadDefaultConfig env;
     env_Query := fun _ _ _ => Ok emptyPage |}.

(** What a successful parse consumes bounds the fuel it needs: the
    statements proved of the three parsing functions at a given fuel. *)
Definition valueFuelOk (n : nat) : Prop :=
  forall d s v r,
    json.parseValue n d s = Some (v, r) ->
    (String.length r < String.length s)%nat /\
    forall m, (2 * (String.length s - String.length r) <= m)%nat ->
              json.parseValue m d s = Some (v, r).

Definition elementsFuelOk (n : nat) : Prop :=
  forall d s vs r,
    json.parseElements n d s = Some (vs, r) ->
    (String.length r < String.length s)%nat /\
    forall m, (2 * (String.length s - String.length r) - 1 <= m)%nat ->
              json.parseElements m d s = Some (vs, r).

Definition membersFuelOk (n : nat) : Prop :=
  forall d s ms r,
    json.parseMembers n d s = Some (ms, r) ->
    (String.length r < String.length s)%nat /\
    forall m, (2 * (String.length s - String.length r) - 1 <= m)%nat ->
              json.parseMembers m d s = Some (ms, r).

(** ** Notions used to state what the handlers do *)

(** The gateway-proxy shape of a direct-return response: a 200 response
    is encoded as the JSON body, any other carries its message as the
    body. *)
Definition proxyOf (r : DirectReturn.Response)
  : events.APIGatewayProxyResponse.t :=
  if DirectReturn.StatusCode r =? 200 then
    proxyResponse 200
      (GatewayProxy.Marshal
         {| GatewayProxy.Exists := DirectReturn.Exists r |})
  else proxyResponse (DirectReturn.StatusCode r) (DirectReturn.Message r).

(** Which status answers which run: 400 when the payload is not decoded,
    500 when it is and the configuration fails to load, 200 when both
    succeed. *)
Definition statusTable (env : Env) (ctx : context.Context)
  (payload : string) (status : Z) : Prop :=
  (status = 400 <-> snd (json.UnmarshalInto "email" payload "") <> None) /\
  (status = 500 <->
     snd (json.UnmarshalInto "email" payload "") = None /\
     exists e, env_LoadDefaultConfig env ctx = Err e) /\
  (status = 200 <->
     snd (json.UnmarshalInto "email" payload "") = None /\
     exists cfg, env_LoadDefaultConfig env ctx = Ok cfg).

(** What a call of a run started with the context [ctx] may be: the
    configuration is loaded with [ctx]; a client is built from the loaded
    configuration and from no other; a query goes to such a client with
    the context [context.TODO]; a writing call is none of them. *)
Definition callOk (env : Env) (ctx : context.Context) (ev : Event) : Prop :=
  match ev with
  | EvPrintf _ _ => True
  | EvLoadDefaultConfig c => c = ctx
  | EvNewFromConfig cfg => env_LoadDefaultConfig env ctx = Ok cfg
  | EvQuery db c _ =>
      c = context.TODO /\
      env_LoadDefaultConfig env ctx = Ok (dynamodb.options db)
  | EvWrite _ _ _ _ _ => False
  end.

(** The shape of a query that binds an email: a fixed key condition, the
    email as the one bound value, and nothing else set. *)
Definition bindsEmail (q : dynamodb.QueryInput) : Prop :=
  dynamodb.KeyConditionExpression q = Some "email = :email" /\
  (exists email,
      dynamodb.ExpressionAttributeValues q =
      [(":email", types.AttributeValueMemberS email)]) /\
  dynamodb.FilterExpression q = None /\
  dynamodb.ExclusiveStartKey q = [] /\
  dynamodb.Limit q = None.

(** A byte that stands for itself in a JSON string literal: printable
    ASCII other than the double quote and the backslash. *)
Definition isPlain (c : ascii) : bool :=
  (32 <=? byte_val c) && (byte_val c <? 127)
  && negb (byte_val c =? 34) && negb (byte_val c =? 92).

Fixpoint allBytes (p : ascii -> bool) (s : string) : bool :=
  match s with
  | EmptyString => true
  | String c r => p c && allBytes p r
  end.

(** A member the decoder matches to the field [name] whose value fits no
    Go [string]: neither a string nor [null]. *)
Definition misfit (name : string) (kv : string * json.value) : bool :=
  json.matchField name (fst kv) &&
  match snd kv with
  | json.Str _ | json.Null => false
  | _ => true
  end.

(** ** The table store behind the client *)


(** A table store: its states, what a state answers to a query that
    reaches it (a page, or an error of the store such as a missing table),
    and what a writing operation makes of a state.  A [Query] has an
    answer and no effect on the state. *)
Record StoreModel : Type := mkStoreModel {
  StoreState : Type;
  storeAnswer : StoreState -> dynamodb.Client -> dynamodb.QueryInput ->
                result dynamodb.QueryOutput;
  storeWrite : StoreState -> string -> option string -> dynamodb.Item ->
               StoreState
}.



(** The state of the store after the calls of a trace: a writing call
    acts on it, every other call leaves it as it is. *)
Definition react (m : StoreModel) (s : StoreState m) (ev : Event)
  : StoreState m :=
  match ev with
  | EvWrite _ _ operation tableName item =>
      storeWrite m s operation tableName item
  | _ => s
  end.

Definition storeAfter (m : StoreModel) (s : StoreState m) (t : list Event)
  : StoreState m :=
  fold_left (react m) t s.

(** A sample store: the emails of the users in [troggle_user].  A query
    under [email-index] is answered with the users of the bound email;
    [PutItem] adds the email of its item and [DeleteItem] removes the
    email of its key. *)
Definition emailOf (item : dynamodb.Item) : string :=
  match item with
  | (_, types.AttributeValueMemberS e) :: _ => e
  | _ => EmptyString
  end.

Definition sampleStore : StoreModel :=
  {| StoreState := list string;
     storeAnswer := fun s _ q =>
       match dynamodb.TableName q, dynamodb.IndexName q with
       | Some "troggle_user", Some "email-index" =>
           let found :=
             filter (fun e =>
                       (e =? emailOf (dynamodb.ExpressionAttributeValues q))
                       %string) s in
           Ok {| dynamodb.Items := map sampleItem found;
                 dynamodb.Count := len found;
                 dynamodb.ScannedCount := len found;
                 dynamodb.LastEvaluatedKey := [] |}
       | _, _ => Err (OtherError "ResourceNotFoundException")
       end;
     storeWrite := fun s operation _ item =>
       if (operation =? "PutItem")%string then emailOf item :: s
       else if (operation =? "DeleteItem")%string then
         filter (fun e => negb (e =? emailOf item)%string) s
       else s |}.





(** * Properties *)

(** ** Running the two versions of [UserExists] and [handler] *)

Section Runs.

Variable env : Env.

Lemma GatewayProxy_UserExists_run email db tableName t :
  GatewayProxy.UserExists email db tableName env t =
  let pre := [EvPrintf "Checking if user exists: %s in table %s"
                [ArgString email; ArgString tableName];
              EvQuery db context.TODO (userQuery email tableName)] in
  match env_Query env db context.TODO (userQuery email tableName) with
  | Err err =>
      (false,
       t ++ pre ++ [EvPrintf "Error fetching item from DynamoDB: %v"
                      [ArgError err]])%list
  | Ok out =>
      if len (dynamodb.Items out) >? 0
      then (true, t ++ pre ++ [EvPrintf "User found: %s" [ArgString email]])%list
      else (false,
            t ++ pre ++ [EvPrintf "User not found: %s" [ArgString email]])%list
  end.
Proof.
  unfold GatewayProxy.UserExists, bind, log.Printf, emit, Client.Query, ret,
    aws.String, userQuery.
  cbn [fst snd].
  destruct (env_Query env db context.TODO _) as [out | err].
  - destruct (len (dynamodb.Items out) >? 0);
      rewrite <- !app_assoc; reflexivity.
  - rewrite <- !app_assoc; reflexivity.
Qed.

Lemma DirectReturn_UserExists_run email db tableName t :
  DirectReturn.UserExists email db tableName env t =
  let pre := [EvPrintf "Checking if user exists: %s in table %s"
                [ArgString email; ArgString tableName];
              EvQuery db context.TODO (userQuery email tableName)] in
  match env_Query env db context.TODO (userQuery email tableName) with
  | Err err =>
      ((false, "User does not exist"),
       t ++ pre ++ [EvPrintf "Error fetching item from DynamoDB: %v"
                      [ArgError err]])%list
  | Ok out =>
      if len (dynamodb.Items out) >? 0
      then ((true, "User exists"),
            t ++ pre ++ [EvPrintf "User found: %s" [ArgString email]])%list
      else ((false, "User does not exist"),
            t ++ pre ++ [EvPrintf "User not found: %s" [ArgString email]])%list
  end.
Proof.
  unfold DirectReturn.UserExists, bind, log.Printf, emit, Client.Query, ret,
    aws.String, userQuery.
  cbn [fst snd].
  destruct (env_Query env db context.TODO _) as [out | err].
  - destruct (len (dynamodb.Items out) >? 0);
      rewrite <- !app_assoc; reflexivity.
  - rewrite <- !app_assoc; reflexivity.
Qed.

Lemma GatewayProxy_handler_run ctx event t :
  GatewayProxy.handler ctx event env t =
  match GatewayProxy.Unmarshal (events.APIGatewayProxyRequest.Body event)
          {| GatewayProxy.Email := "" |} with
  | (_, Some _) => ((proxyResponse 400 "Invalid request", None), t)
  | (req, None) =>
      match env_LoadDefaultConfig env ctx with
      | Err err =>
          ((proxyResponse 500 "Server error", None),
           t ++ [EvLoadDefaultConfig ctx;
                 EvPrintf "Error loading AWS config: %v" [ArgError err]])%list
      | Ok cfg =>
          let '(found, t') :=
            GatewayProxy.UserExists (GatewayProxy.Email req)
              (dynamodb.mkClient cfg) "troggle_user" env
              (t ++ [EvLoadDefaultConfig ctx; EvNewFromConfig cfg])%list in
          ((proxyResponse 200
              (GatewayProxy.Marshal {| GatewayProxy.Exists := found |}),
            None), t')
      end
  end.
Proof.
  unfold GatewayProxy.handler.
  destruct (GatewayProxy.Unmarshal _ _) as [req [e|]]; [reflexivity|].
  cbv [bind config.LoadDefaultConfig NewFromConfig log.Printf emit ret].
  destruct (env_LoadDefaultConfig env ctx) as [cfg | err].
  - cbn beta iota. rewrite <- app_assoc. cbn [app].
    destruct (GatewayProxy.UserExists _ _ _ env _); reflexivity.
  - cbn beta iota. rewrite <- app_assoc. reflexivity.
Qed.

Lemma DirectReturn_handler_run ctx payload t :
  DirectReturn.handler ctx payload env t =
  match DirectReturn.Unmarshal payload {| DirectReturn.Email := "" |} with
  | (_, Some e) =>
      (({| DirectReturn.StatusCode := 400;
           DirectReturn.Exists := false;
           DirectReturn.Message := "Invalid request" |}, Some e), t)
  | (req, None) =>
      match env_LoadDefaultConfig env ctx with
      | Err err =>
          (({| DirectReturn.StatusCode := 500;
               DirectReturn.Exists := false;
               DirectReturn.Message := "Server error" |}, Some err),
           t ++ [EvLoadDefaultConfig ctx;
                 EvPrintf "Error loading AWS config: %v" [ArgError err]])%list
      | Ok cfg =>
          let '((found, msg), t') :=
            DirectReturn.UserExists (DirectReturn.Email req)
              (dynamodb.mkClient cfg) "troggle_user" env
              (t ++ [EvLoadDefaultConfig ctx; EvNewFromConfig cfg])%list in
          (({| DirectReturn.StatusCode := 200;
               DirectReturn.Exists := found;
               DirectReturn.Message := msg |}, None), t')
      end
  end.
Proof.
  unfold DirectReturn.handler.
  destruct (DirectReturn.Unmarshal _ _) as [req [e|]]; [reflexivity|].
  cbv [bind config.LoadDefaultConfig NewFromConfig log.Printf emit ret].
  destruct (env_LoadDefaultConfig env ctx) as [cfg | err].
  - cbn beta iota. rewrite <- app_assoc. cbn [app].
    destruct (DirectReturn.UserExists _ _ _ env _) as [[found msg] t'];
      reflexivity.
  - cbn beta iota. rewrite <- app_assoc. reflexivity.
Qed.

End Runs.

(** ** The existence probe *)

Lemma len_pos_iff {A : Type} (l : list A) :
  (len l >? 0) = true <-> (0 < List.length l)%nat.
Proof.
  unfold len. rewrite Z.gtb_lt. lia.
Qed.

Lemma len_nil_gtb {A : Type} (l : list A) :
  l = [] -> (len l >? 0) = false.
Proof.
  intros ->. reflexivity.
Qed.

Lemma GatewayProxy_UserExists_query_fails env email db tableName err t :
  env_Query env db context.TODO (userQuery email tableName) = Err err ->
  fst (GatewayProxy.UserExists email db tableName env t) = false.
Proof.
  intros H. rewrite GatewayProxy_UserExists_run. cbv zeta.
  rewrite H. reflexivity.
Qed.

Lemma DirectReturn_UserExists_query_fails env email db tableName err t :
  env_Query env db context.TODO (userQuery email tableName) = Err err ->
  fst (DirectReturn.UserExists email db tableName env t) =
  (false, "User does not exist").
Proof.
  intros H. rewrite DirectReturn_UserExists_run. cbv zeta.
  rewrite H. reflexivity.
Qed.

Lemma GatewayProxy_UserExists_no_items env email db tableName out t :
  env_Query env db context.TODO (userQuery email tableName) = Ok out ->
  dynamodb.Items out = [] ->
  fst (GatewayProxy.UserExists email db tableName env t) = false.
Proof.
  intros H Hnil. rewrite GatewayProxy_UserExists_run. cbv zeta.
  rewrite H, (len_nil_gtb _ Hnil). reflexivity.
Qed.

Lemma DirectReturn_UserExists_no_items env email db tableName out t :
  env_Query env db context.TODO (userQuery email tableName) = Ok out ->
  dynamodb.Items out = [] ->
  fst (DirectReturn.UserExists email db tableName env t) =
  (false, "User does not exist").
Proof.
  intros H Hnil. rewrite DirectReturn_UserExists_run. cbv zeta.
  rewrite H, (len_nil_gtb _ Hnil). reflexivity.
Qed.

Lemma queries_app t1 t2 :
  queries (t1 ++ t2) = (queries t1 ++ queries t2)%list.
Proof.
  induction t1 as [|[] t1 IH]; cbn; rewrite ?IH; reflexivity.
Qed.

(** Both versions of [UserExists] send the store one and the same query,
    whatever it answers. *)
Lemma GatewayProxy_UserExists_queries env email db tableName t :
  queries (snd (GatewayProxy.UserExists email db tableName env t)) =
  (queries t ++ [userQuery email tableName])%list.
Proof.
  rewrite GatewayProxy_UserExists_run. cbv zeta.
  destruct (env_Query env db context.TODO _) as [out | err];
    [destruct (len (dynamodb.Items out) >? 0)|];
    cbn [snd]; rewrite queries_app; reflexivity.
Qed.

Lemma DirectReturn_UserExists_queries env email db tableName t :
  queries (snd (DirectReturn.UserExists email db tableName env t)) =
  (queries t ++ [userQuery email tableName])%list.
Proof.
  rewrite DirectReturn_UserExists_run. cbv zeta.
  destruct (env_Query env db context.TODO _) as [out | err];
    [destruct (len (dynamodb.Items out) >? 0)|];
    cbn [snd]; rewrite queries_app; reflexivity.
Qed.

(** C4: when the store answers the query, both versions of [UserExists]
    return [true] exactly when the page returned has more than zero
    items, and the run sends the store that one query and no other: a
    query without a start key, so the first page, whatever the page says
    of further results. *)
Theorem C4_exists_iff_first_page_has_items :
  forall env email db tableName out,
    env_Query env db context.TODO (userQuery email tableName) = Ok out ->
    (fst (run (GatewayProxy.UserExists email db tableName) env) = true <->
     (0 < List.length (dynamodb.Items out))%nat) /\
    (fst (fst (run (DirectReturn.UserExists email db tableName) env)) = true <->
     (0 < List.length (dynamodb.Items out))%nat) /\
    queries (snd (run (GatewayProxy.UserExists email db tableName) env)) =
      [userQuery email tableName] /\
    queries (snd (run (DirectReturn.UserExists email db tableName) env)) =
      [userQuery email tableName] /\
    dynamodb.ExclusiveStartKey (userQuery email tableName) = [].
Proof.
  intros env email db tableName out H. unfold run.
  repeat split.
  - rewrite GatewayProxy_UserExists_run. cbv zeta. rewrite H.
    destruct (len (dynamodb.Items out) >? 0) eqn:E; cbn [fst]; intros Hx.
    + now apply len_pos_iff.
    + discriminate.
  - rewrite GatewayProxy_UserExists_run. cbv zeta. rewrite H.
    intros Hpos. apply len_pos_iff in Hpos. rewrite Hpos. reflexivity.
  - rewrite DirectReturn_UserExists_run. cbv zeta. rewrite H.
    destruct (len (dynamodb.Items out) >? 0) eqn:E; cbn [fst]; intros Hx.
    + now apply len_pos_iff.
    + discriminate.
  - rewrite DirectReturn_UserExists_run. cbv zeta. rewrite H.
    intros Hpos. apply len_pos_iff in Hpos. rewrite Hpos. reflexivity.
  - apply GatewayProxy_UserExists_queries.
  - apply DirectReturn_UserExists_queries.
Qed.

Lemma C4_witness :
  env_Query sampleEnv (dynamodb.mkClient sampleConfig) context.TODO
    (userQuery "alice@example.com" "troggle_user")
  = Ok {| dynamodb.Items := [sampleItem "alice@example.com"];
          dynamodb.Count := 1;
          dynamodb.ScannedCount := 1;
          dynamodb.LastEvaluatedKey := [] |} /\
  fst (run (GatewayProxy.UserExists "alice@example.com"
              (dynamodb.mkClient sampleConfig) "troggle_user") sampleEnv) = true.
Proof.
  split; [reflexivity|].
  apply (C4_exists_iff_first_page_has_items sampleEnv "alice@example.com"
           (dynamodb.mkClient sampleConfig) "troggle_user" _ eq_refl).
  cbn. lia.
Defined.

(** C10: in the direct-return version, when the query fails [UserExists]
    returns [(false, "User does not exist")], the very pair it returns
    when the store answers the query with a page of zero items. *)
Theorem C10_store_failure_pair_equals_absence_pair :
  forall env email db tableName err,
    env_Query env db context.TODO (userQuery email tableName) = Err err ->
    fst (run (DirectReturn.UserExists email db tableName) env) =
      (false, "User does not exist") /\
    forall env' out,
      env_Query env' db context.TODO (userQuery email tableName) = Ok out ->
      dynamodb.Items out = [] ->
      fst (run (DirectReturn.UserExists email db tableName) env') =
      fst (run (DirectReturn.UserExists email db tableName) env).
Proof.
  intros env email db tableName err Hfail. unfold run. split.
  - eapply DirectReturn_UserExists_query_fails; eassumption.
  - intros env' out Hok Hnil.
    rewrite (DirectReturn_UserExists_no_items _ _ _ _ _ _ Hok Hnil).
    symmetry. eapply DirectReturn_UserExists_query_fails; eassumption.
Qed.

Lemma C10_witness :
  fst (run (DirectReturn.UserExists "alice@example.com"
              (dynamodb.mkClient sampleConfig) "troggle_user") storeDownEnv) =
    (false, "User does not exist") /\
  fst (run (DirectReturn.UserExists "nobody@example.com"
              (dynamodb.mkClient sampleConfig) "troggle_user") sampleEnv) =
    (false, "User does not exist").
Proof.
  pose proof (C10_store_failure_pair_equals_absence_pair storeDownEnv
                "alice@example.com" (dynamodb.mkClient sampleConfig)
                "troggle_user" _ eq_refl) as [Hfail _].
  pose proof (C10_store_failure_pair_equals_absence_pair storeDownEnv
                "nobody@example.com" (dynamodb.mkClient sampleConfig)
                "troggle_user" _ eq_refl) as [Hfail' Hsame].
  split; [exact Hfail|].
  rewrite (Hsame sampleEnv emptyPage eq_refl eq_refl). exact Hfail'.
Defined.

(** ** The handlers when the store fails *)

Lemma GatewayProxy_Unmarshal_ok data email :
  json.UnmarshalInto "email" data "" = (email, None) ->
  GatewayProxy.Unmarshal data {| GatewayProxy.Email := "" |} =
  ({| GatewayProxy.Email := email |}, None).
Proof.
  intros H. unfold GatewayProxy.Unmarshal. cbn [GatewayProxy.Email].
  rewrite H. reflexivity.
Qed.

Lemma DirectReturn_Unmarshal_ok data email :
  json.UnmarshalInto "email" data "" = (email, None) ->
  DirectReturn.Unmarshal data {| DirectReturn.Email := "" |} =
  ({| DirectReturn.Email := email |}, None).
Proof.
  intros H. unfold DirectReturn.Unmarshal. cbn [DirectReturn.Email].
  rewrite H. reflexivity.
Qed.

(** The response of a run that reaches the probe. *)
Lemma GatewayProxy_handler_probe env ctx event email cfg :
  json.UnmarshalInto "email" (events.APIGatewayProxyRequest.Body event) ""
    = (email, None) ->
  env_LoadDefaultConfig env ctx = Ok cfg ->
  fst (run (GatewayProxy.handler ctx event) env) =
  (proxyResponse 200
     (GatewayProxy.Marshal
        {| GatewayProxy.Exists :=
             fst (GatewayProxy.UserExists email (dynamodb.mkClient cfg)
                    "troggle_user" env
                    [EvLoadDefaultConfig ctx; EvNewFromConfig cfg]) |}),
   None).
Proof.
  intros Hdec Hcfg. unfold run. rewrite GatewayProxy_handler_run.
  rewrite (GatewayProxy_Unmarshal_ok _ _ Hdec), Hcfg.
  cbn [app GatewayProxy.Email].
  destruct (GatewayProxy.UserExists _ _ _ env _); reflexivity.
Qed.

Lemma DirectReturn_handler_probe env ctx payload email cfg :
  json.UnmarshalInto "email" payload "" = (email, None) ->
  env_LoadDefaultConfig env ctx = Ok cfg ->
  fst (run (DirectReturn.handler ctx payload) env) =
  let em := fst (DirectReturn.UserExists email (dynamodb.mkClient cfg)
                   "troggle_user" env
                   [EvLoadDefaultConfig ctx; EvNewFromConfig cfg]) in
  ({| DirectReturn.StatusCode := 200;
      DirectReturn.Exists := fst em;
      DirectReturn.Message := snd em |}, None).
Proof.
  intros Hdec Hcfg. unfold run. rewrite DirectReturn_handler_run.
  rewrite (DirectReturn_Unmarshal_ok _ _ Hdec), Hcfg.
  cbn [app DirectReturn.Email].
  destruct (DirectReturn.UserExists _ _ _ env _) as [[found msg] t'];
    reflexivity.
Qed.

(** C1: in a run whose store query fails, [UserExists] returns
    [exists = false] and the handler answers status 200 with
    [exists = false] and a nil error; the answer is the one the same run
    gives over a store in which no record matches, so the failure cannot
    be told from a genuine absence. *)
Theorem C1_store_failure_answers_200_not_found :
  forall env ctx event email cfg err,
    json.UnmarshalInto "email" (events.APIGatewayProxyRequest.Body event) ""
      = (email, None) ->
    env_LoadDefaultConfig env ctx = Ok cfg ->
    env_Query env (dynamodb.mkClient cfg) context.TODO
      (userQuery email "troggle_user") = Err err ->
    fst (run (GatewayProxy.UserExists email (dynamodb.mkClient cfg)
                "troggle_user") env) = false /\
    fst (fst (run (DirectReturn.UserExists email (dynamodb.mkClient cfg)
                     "troggle_user") env)) = false /\
    fst (run (GatewayProxy.handler ctx event) env) =
      (proxyResponse 200 (GatewayProxy.Marshal {| GatewayProxy.Exists := false |}), None) /\
    fst (run (DirectReturn.handler ctx
                (events.APIGatewayProxyRequest.Body event)) env) =
      ({| DirectReturn.StatusCode := 200;
          DirectReturn.Exists := false;
          DirectReturn.Message := "User does not exist" |}, None) /\
    fst (run (GatewayProxy.handler ctx event) (withEmptyStore env)) =
      fst (run (GatewayProxy.handler ctx event) env) /\
    fst (run (DirectReturn.handler ctx
                (events.APIGatewayProxyRequest.Body event))
           (withEmptyStore env)) =
      fst (run (DirectReturn.handler ctx
                  (events.APIGatewayProxyRequest.Body event)) env).
Proof.
  intros env ctx event email cfg err Hdec Hcfg Hfail.
  assert (HG : fst (run (GatewayProxy.handler ctx event) env) =
               (proxyResponse 200 (GatewayProxy.Marshal {| GatewayProxy.Exists := false |}), None)).
  { rewrite (GatewayProxy_handler_probe _ _ _ _ _ Hdec Hcfg).
    rewrite (GatewayProxy_UserExists_query_fails _ _ _ _ _ _ Hfail).
    reflexivity. }
  assert (HD : fst (run (DirectReturn.handler ctx
                           (events.APIGatewayProxyRequest.Body event)) env) =
               ({| DirectReturn.StatusCode := 200;
                   DirectReturn.Exists := false;
                   DirectReturn.Message := "User does not exist" |}, None)).
  { rewrite (DirectReturn_handler_probe _ _ _ _ _ Hdec Hcfg). cbv zeta.
    rewrite (DirectReturn_UserExists_query_fails _ _ _ _ _ _ Hfail).
    reflexivity. }
  assert (Hcfg' : env_LoadDefaultConfig (withEmptyStore env) ctx = Ok cfg)
    by exact Hcfg.
  repeat split.
  - unfold run. eapply GatewayProxy_UserExists_query_fails; eassumption.
  - unfold run.
    rewrite (DirectReturn_UserExists_query_fails _ _ _ _ _ _ Hfail).
    reflexivity.
  - exact HG.
  - exact HD.
  - rewrite HG, (GatewayProxy_handler_probe _ _ _ _ _ Hdec Hcfg').
    rewrite (GatewayProxy_UserExists_no_items (withEmptyStore env) _ _ _
               emptyPage _ eq_refl eq_refl).
    reflexivity.
  - rewrite HD, (DirectReturn_handler_probe _ _ _ _ _ Hdec Hcfg'). cbv zeta.
    rewrite (DirectReturn_UserExists_no_items (withEmptyStore env) _ _ _
               emptyPage _ eq_refl eq_refl).
    reflexivity.
Qed.

Lemma C1_witness :
  fst (run (DirectReturn.handler context.Background
              (objectPayload "email" "alice@example.com")) storeDownEnv) =
  ({| DirectReturn.StatusCode := 200;
      DirectReturn.Exists := false;
      DirectReturn.Message := "User does not exist" |}, None).
Proof.
  apply (C1_store_failure_answers_200_not_found storeDownEnv
           context.Background
           (proxyRequest (objectPayload "email" "alice@example.com"))
           "alice@example.com" sampleConfig
           (OtherError "RequestError: send request failed")).
  - vm_compute. reflexivity.
  - reflexivity.
  - reflexivity.
Defined.

(** ** Decoding the payload *)

(** A text that is not valid JSON, or whose value is neither an object
    nor [null], is not decoded: [Unmarshal] returns an error. *)
Lemma UnmarshalInto_rejects name data cur :
  json.parse data = None \/
  (exists v, json.parse data = Some v /\
             isObject v = false /\ isNull v = false) ->
  exists e, json.UnmarshalInto name data cur = (cur, Some e).
Proof.
  unfold json.UnmarshalInto.
  intros [Hnone | (v & Hv & Hobj & Hnull)].
  - rewrite Hnone. eauto.
  - rewrite Hv. destruct v; cbn in *; try discriminate; eauto.
Qed.

(** Members whose key matches no field leave the struct as it is. *)
Lemma objectInto_no_field name ms cur saved :
  hasField name ms = false ->
  json.objectInto name ms cur saved = (cur, saved).
Proof.
  induction ms as [| [key v] ms IH]; cbn; [reflexivity|].
  intros H. apply orb_false_iff in H as [Hkey Hrest].
  rewrite Hkey. apply IH, Hrest.
Qed.

Lemma UnmarshalInto_object_no_field name data ms cur :
  json.parse data = Some (json.Object ms) ->
  hasField name ms = false ->
  json.UnmarshalInto name data cur = (cur, None).
Proof.
  intros Hparse Hno. unfold json.UnmarshalInto. rewrite Hparse. cbn.
  apply objectInto_no_field, Hno.
Qed.

Lemma UnmarshalInto_null name data cur :
  json.parse data = Some json.Null ->
  json.UnmarshalInto name data cur = (cur, None).
Proof.
  intros Hparse. unfold json.UnmarshalInto. rewrite Hparse. reflexivity.
Qed.

(** A run whose payload is not decoded. *)
Lemma GatewayProxy_handler_decode_error env ctx event e :
  snd (json.UnmarshalInto "email"
         (events.APIGatewayProxyRequest.Body event) "") = Some e ->
  run (GatewayProxy.handler ctx event) env =
  ((proxyResponse 400 "Invalid request", None), []).
Proof.
  intros H. unfold run. rewrite GatewayProxy_handler_run.
  unfold GatewayProxy.Unmarshal. cbn [GatewayProxy.Email].
  destruct (json.UnmarshalInto _ _ _) as [email err]. cbn in H. subst err.
  reflexivity.
Qed.

Lemma DirectReturn_handler_decode_error env ctx payload e :
  snd (json.UnmarshalInto "email" payload "") = Some e ->
  run (DirectReturn.handler ctx payload) env =
  (({| DirectReturn.StatusCode := 400;
       DirectReturn.Exists := false;
       DirectReturn.Message := "Invalid request" |}, Some e), []).
Proof.
  intros H. unfold run. rewrite DirectReturn_handler_run.
  unfold DirectReturn.Unmarshal. cbn [DirectReturn.Email].
  destruct (json.UnmarshalInto _ _ _) as [email err]. cbn in H. subst err.
  reflexivity.
Qed.

(** The queries of a run that reaches the probe. *)
Lemma GatewayProxy_handler_queries env ctx event email cfg :
  json.UnmarshalInto "email" (events.APIGatewayProxyRequest.Body event) ""
    = (email, None) ->
  env_LoadDefaultConfig env ctx = Ok cfg ->
  queries (snd (run (GatewayProxy.handler ctx event) env)) =
  [userQuery email "troggle_user"].
Proof.
  intros Hdec Hcfg. unfold run. rewrite GatewayProxy_handler_run.
  rewrite (GatewayProxy_Unmarshal_ok _ _ Hdec), Hcfg.
  cbn [app GatewayProxy.Email].
  pose proof (GatewayProxy_UserExists_queries env email
                (dynamodb.mkClient cfg) "troggle_user"
                [EvLoadDefaultConfig ctx; EvNewFromConfig cfg]) as Hq.
  destruct (GatewayProxy.UserExists _ _ _ env _) as [found t'].
  exact Hq.
Qed.

Lemma DirectReturn_handler_queries env ctx payload email cfg :
  json.UnmarshalInto "email" payload "" = (email, None) ->
  env_LoadDefaultConfig env ctx = Ok cfg ->
  queries (snd (run (DirectReturn.handler ctx payload) env)) =
  [userQuery email "troggle_user"].
Proof.
  intros Hdec Hcfg. unfold run. rewrite DirectReturn_handler_run.
  rewrite (DirectReturn_Unmarshal_ok _ _ Hdec), Hcfg.
  cbn [app DirectReturn.Email].
  pose proof (DirectReturn_UserExists_queries env email
                (dynamodb.mkClient cfg) "troggle_user"
                [EvLoadDefaultConfig ctx; EvNewFromConfig cfg]) as Hq.
  destruct (DirectReturn.UserExists _ _ _ env _) as [[found msg] t'].
  exact Hq.
Qed.

(** C2, as the code has it: a payload that is not valid JSON, or whose
    top-level value is neither an object nor [null], is answered with
    status 400, [exists = false] and the message "Invalid request" (the
    gateway-proxy version carries the message as its body), and the run
    calls no collaborator: no configuration is loaded, no store client is
    built and no query is sent. *)
Theorem C2_undecodable_payload_answers_400 :
  forall env ctx event,
    json.parse (events.APIGatewayProxyRequest.Body event) = None \/
    (exists v,
        json.parse (events.APIGatewayProxyRequest.Body event) = Some v /\
        isObject v = false /\ isNull v = false) ->
    fst (fst (run (DirectReturn.handler ctx
                     (events.APIGatewayProxyRequest.Body event)) env)) =
      {| DirectReturn.StatusCode := 400;
         DirectReturn.Exists := false;
         DirectReturn.Message := "Invalid request" |} /\
    snd (run (DirectReturn.handler ctx
                (events.APIGatewayProxyRequest.Body event)) env) = [] /\
    fst (fst (run (GatewayProxy.handler ctx event) env)) =
      proxyResponse 400 "Invalid request" /\
    snd (run (GatewayProxy.handler ctx event) env) = [].
Proof.
  intros env ctx event H.
  destruct (UnmarshalInto_rejects "email" _ "" H) as [e He].
  assert (Hs : snd (json.UnmarshalInto "email"
                      (events.APIGatewayProxyRequest.Body event) "") = Some e)
    by (rewrite He; reflexivity).
  rewrite (DirectReturn_handler_decode_error env ctx _ e Hs).
  rewrite (GatewayProxy_handler_decode_error env ctx _ e Hs).
  repeat split.
Qed.

Lemma C2_witness :
  json.parse "not-json" = None /\
  fst (fst (run (DirectReturn.handler context.Background "not-json")
              sampleEnv)) =
    {| DirectReturn.StatusCode := 400;
       DirectReturn.Exists := false;
       DirectReturn.Message := "Invalid request" |} /\
  json.parse (arrayPayload "alice@example.com") =
    Some (json.Array [json.Str "alice@example.com"]) /\
  snd (run (DirectReturn.handler context.Background
              (arrayPayload "alice@example.com")) sampleEnv) = [].
Proof.
  split; [vm_compute; reflexivity|]. split.
  - apply (C2_undecodable_payload_answers_400 sampleEnv context.Background
             (proxyRequest "not-json")).
    left. vm_compute. reflexivity.
  - split; [vm_compute; reflexivity|].
    apply (C2_undecodable_payload_answers_400 sampleEnv context.Background
             (proxyRequest (arrayPayload "alice@example.com"))).
    right. exists (json.Array [json.Str "alice@example.com"]).
    split; [vm_compute; reflexivity|]. split; reflexivity.
Defined.

(** The payload [null] is valid JSON whose top-level value is not an
    object; it is decoded without error, leaves the email empty, and the
    handlers answer status 200 after querying the store. *)
Lemma C2_counterexample_null :
  json.parse "null" = Some json.Null /\
  isObject json.Null = false /\
  fst (run (DirectReturn.handler context.Background "null") sampleEnv) =
    ({| DirectReturn.StatusCode := 200;
        DirectReturn.Exists := false;
        DirectReturn.Message := "User does not exist" |}, None) /\
  queries (snd (run (DirectReturn.handler context.Background "null")
                  sampleEnv)) = [userQuery "" "troggle_user"] /\
  fst (run (GatewayProxy.handler context.Background (proxyRequest "null"))
         sampleEnv) = (proxyResponse 200 (GatewayProxy.Marshal {| GatewayProxy.Exists := false |}), None) /\
  queries (snd (run (GatewayProxy.handler context.Background
                       (proxyRequest "null")) sampleEnv)) =
    [userQuery "" "troggle_user"].
Proof.
  repeat split; vm_compute; reflexivity.
Qed.

(** C7, as the code has it: a payload that is a JSON object none of whose
    keys matches [email], exactly or with letters of another case, is
    decoded without error and leaves the email empty; once the client
    configuration has loaded, the handler sends the store exactly one
    query, for the empty email. *)
Theorem C7_object_without_email_field_decodes_to_empty :
  forall env ctx event ms cfg,
    json.parse (events.APIGatewayProxyRequest.Body event) =
      Some (json.Object ms) ->
    hasField "email" ms = false ->
    env_LoadDefaultConfig env ctx = Ok cfg ->
    GatewayProxy.Unmarshal (events.APIGatewayProxyRequest.Body event)
      {| GatewayProxy.Email := "" |} = ({| GatewayProxy.Email := "" |}, None) /\
    DirectReturn.Unmarshal (events.APIGatewayProxyRequest.Body event)
      {| DirectReturn.Email := "" |} = ({| DirectReturn.Email := "" |}, None) /\
    queries (snd (run (GatewayProxy.handler ctx event) env)) =
      [userQuery "" "troggle_user"] /\
    queries (snd (run (DirectReturn.handler ctx
                         (events.APIGatewayProxyRequest.Body event)) env)) =
      [userQuery "" "troggle_user"].
Proof.
  intros env ctx event ms cfg Hparse Hno Hcfg.
  pose proof (UnmarshalInto_object_no_field "email" _ ms "" Hparse Hno) as Hdec.
  repeat split.
  - apply GatewayProxy_Unmarshal_ok, Hdec.
  - apply DirectReturn_Unmarshal_ok, Hdec.
  - eapply GatewayProxy_handler_queries; eassumption.
  - eapply DirectReturn_handler_queries; eassumption.
Qed.

Lemma C7_witness :
  json.parse (objectPayload "name" "alice") =
    Some (json.Object [("name", json.Str "alice")]) /\
  queries (snd (run (DirectReturn.handler context.Background
                       (objectPayload "name" "alice")) sampleEnv)) =
    [userQuery "" "troggle_user"].
Proof.
  split; [vm_compute; reflexivity|].
  apply (C7_object_without_email_field_decodes_to_empty sampleEnv
           context.Background (proxyRequest (objectPayload "name" "alice"))
           [("name", json.Str "alice")] sampleConfig).
  - vm_compute. reflexivity.
  - vm_compute. reflexivity.
  - reflexivity.
Defined.

(** The object [{"Email":"a@b.c"}] has no member with the key [email],
    yet it is decoded to the email [a@b.c], which is the email looked
    up. *)
Lemma C7_counterexample_other_case_key :
  json.parse (objectPayload "Email" "a@b.c") =
    Some (json.Object [("Email", json.Str "a@b.c")]) /\
  hasKey "email" [("Email", json.Str "a@b.c")] = false /\
  DirectReturn.Unmarshal (objectPayload "Email" "a@b.c")
    {| DirectReturn.Email := "" |} =
    ({| DirectReturn.Email := "a@b.c" |}, None) /\
  GatewayProxy.Unmarshal (objectPayload "Email" "a@b.c")
    {| GatewayProxy.Email := "" |} =
    ({| GatewayProxy.Email := "a@b.c" |}, None) /\
  queries (snd (run (DirectReturn.handler context.Background
                       (objectPayload "Email" "a@b.c")) sampleEnv)) =
    [userQuery "a@b.c" "troggle_user"].
Proof.
  repeat split; vm_compute; reflexivity.
Qed.

(** ** The gateway-proxy answer to an undecodable payload *)

Lemma Invalid_request_is_not_json : json.parse "Invalid request" = None.
Proof. vm_compute. reflexivity. Qed.

(** C9: in the gateway-proxy version, when the payload fails to decode
    the body of the answer is exactly the string "Invalid request"; it is
    no JSON text, so it has no [exists] field, and it is not the encoding
    of a [Response], whatever its [Exists]. *)
Theorem C9_proxy_decode_failure_body_is_plain_string :
  forall env ctx event req e,
    GatewayProxy.Unmarshal (events.APIGatewayProxyRequest.Body event)
      {| GatewayProxy.Email := "" |} = (req, Some e) ->
    let resp := fst (fst (run (GatewayProxy.handler ctx event) env)) in
    events.APIGatewayProxyResponse.StatusCode resp = 400 /\
    events.APIGatewayProxyResponse.Body resp = "Invalid request" /\
    json.parse (events.APIGatewayProxyResponse.Body resp) = None /\
    forall b,
      events.APIGatewayProxyResponse.Body resp <>
      GatewayProxy.Marshal {| GatewayProxy.Exists := b |}.
Proof.
  intros env ctx event req e H resp.
  assert (Hresp : resp = proxyResponse 400 "Invalid request").
  { subst resp. unfold run. rewrite GatewayProxy_handler_run, H.
    reflexivity. }
  rewrite Hresp. cbn [proxyResponse events.APIGatewayProxyResponse.StatusCode
                        events.APIGatewayProxyResponse.Body].
  split; [reflexivity|]. split; [reflexivity|]. split.
  - apply Invalid_request_is_not_json.
  - intros [|]; discriminate.
Qed.

Lemma C9_witness :
  events.APIGatewayProxyResponse.Body
    (fst (fst (run (GatewayProxy.handler context.Background
                      (proxyRequest "not-json")) sampleEnv))) =
  "Invalid request".
Proof.
  apply (C9_proxy_decode_failure_body_is_plain_string sampleEnv
           context.Background (proxyRequest "not-json")
           {| GatewayProxy.Email := "" |} SyntaxError).
  vm_compute. reflexivity.
Defined.

(** ** The error handed to the invocation runtime *)

(** The gateway-proxy handler returns a nil error in every run. *)
Lemma GatewayProxy_handler_nil_error env ctx event :
  snd (fst (run (GatewayProxy.handler ctx event) env)) = None.
Proof.
  unfold run. rewrite GatewayProxy_handler_run.
  destruct (GatewayProxy.Unmarshal _ _) as [req [e|]]; [reflexivity|].
  destruct (env_LoadDefaultConfig env ctx) as [cfg | err]; [|reflexivity].
  destruct (GatewayProxy.UserExists _ _ _ env _); reflexivity.
Qed.

(** The direct-return handler returns the decoding error, or the error of
    the configuration loader, next to its 400 or 500 response; its error
    is nil only next to a 200 response. *)
Lemma DirectReturn_handler_error env ctx payload :
  let '(resp, err) := fst (run (DirectReturn.handler ctx payload) env) in
  match err with
  | None => DirectReturn.StatusCode resp = 200
  | Some e =>
      (DirectReturn.StatusCode resp = 400 /\
       snd (DirectReturn.Unmarshal payload {| DirectReturn.Email := "" |})
         = Some e) \/
      (DirectReturn.StatusCode resp = 500 /\
       env_LoadDefaultConfig env ctx = Err e)
  end.
Proof.
  unfold run. rewrite DirectReturn_handler_run.
  destruct (DirectReturn.Unmarshal _ _) as [req [e|]]; cbn [fst snd].
  - left. split; reflexivity.
  - destruct (env_LoadDefaultConfig env ctx) as [cfg | err]; cbn [fst snd].
    + destruct (DirectReturn.UserExists _ _ _ env _) as [[found msg] t'].
      reflexivity.
    + right. split; reflexivity.
Qed.

(** C3 at its failing inputs: for the payload [not-json] the direct-return
    handler returns its 400 response together with the non-nil decoding
    error, and when the configuration cannot be loaded its 500 response
    together with the loader's error; the gateway-proxy handler returns a
    nil error in both runs. *)
Theorem C3_direct_return_hands_error_to_runtime :
  run (DirectReturn.handler context.Background "not-json") sampleEnv =
    (({| DirectReturn.StatusCode := 400;
         DirectReturn.Exists := false;
         DirectReturn.Message := "Invalid request" |}, Some SyntaxError),
     []) /\
  fst (run (DirectReturn.handler context.Background
              (objectPayload "email" "alice@example.com")) noConfigEnv) =
    ({| DirectReturn.StatusCode := 500;
        DirectReturn.Exists := false;
        DirectReturn.Message := "Server error" |},
     Some (OtherError "failed to load shared config")) /\
  fst (run (GatewayProxy.handler context.Background
              (proxyRequest "not-json")) sampleEnv) =
    (proxyResponse 400 "Invalid request", None) /\
  fst (run (GatewayProxy.handler context.Background
              (proxyRequest (objectPayload "email" "alice@example.com")))
         noConfigEnv) =
    (proxyResponse 500 "Server error", None).
Proof.
  repeat split; vm_compute; reflexivity.
Qed.

(** ** The handlers when the configuration cannot be loaded *)



(** ** The queries of a run, and running twice *)

(** A run does not read the trace: started after other calls, it returns
    the same value and adds the same calls. *)
Lemma GatewayProxy_UserExists_frame env email db tableName t :
  GatewayProxy.UserExists email db tableName env t =
  (fst (GatewayProxy.UserExists email db tableName env []),
   (t ++ snd (GatewayProxy.UserExists email db tableName env []))%list).
Proof.
  rewrite !GatewayProxy_UserExists_run. cbv zeta.
  destruct (env_Query env db context.TODO _) as [out | err];
    [destruct (len (dynamodb.Items out) >? 0)|]; reflexivity.
Qed.

Lemma DirectReturn_UserExists_frame env email db tableName t :
  DirectReturn.UserExists email db tableName env t =
  (fst (DirectReturn.UserExists email db tableName env []),
   (t ++ snd (DirectReturn.UserExists email db tableName env []))%list).
Proof.
  rewrite !DirectReturn_UserExists_run. cbv zeta.
  destruct (env_Query env db context.TODO _) as [out | err];
    [destruct (len (dynamodb.Items out) >? 0)|]; reflexivity.
Qed.

Lemma GatewayProxy_handler_frame env ctx event t :
  GatewayProxy.handler ctx event env t =
  (fst (run (GatewayProxy.handler ctx event) env),
   (t ++ snd (run (GatewayProxy.handler ctx event) env))%list).
Proof.
  unfold run. rewrite !GatewayProxy_handler_run.
  destruct (GatewayProxy.Unmarshal _ _) as [req [e|]].
  - cbn [fst snd]. rewrite app_nil_r. reflexivity.
  - destruct (env_LoadDefaultConfig env ctx) as [cfg | err];
      [|reflexivity].
    rewrite (GatewayProxy_UserExists_frame env _ _ _ (t ++ _)).
    rewrite (GatewayProxy_UserExists_frame env _ _ _ ([] ++ _)).
    cbn [fst snd app]. rewrite <- app_assoc. reflexivity.
Qed.

Lemma DirectReturn_handler_frame env ctx payload t :
  DirectReturn.handler ctx payload env t =
  (fst (run (DirectReturn.handler ctx payload) env),
   (t ++ snd (run (DirectReturn.handler ctx payload) env))%list).
Proof.
  unfold run. rewrite !DirectReturn_handler_run.
  destruct (DirectReturn.Unmarshal _ _) as [req [e|]].
  - cbn [fst snd]. rewrite app_nil_r. reflexivity.
  - destruct (env_LoadDefaultConfig env ctx) as [cfg | err];
      [|reflexivity].
    rewrite (DirectReturn_UserExists_frame env _ _ _ (t ++ _)).
    rewrite (DirectReturn_UserExists_frame env _ _ _ ([] ++ _)).
    destruct (fst (DirectReturn.UserExists _ _ _ env [])) as [found msg].
    cbn [fst snd app]. rewrite <- app_assoc. reflexivity.
Qed.

(** A run sends the store no query, or the one query for the email of
    the payload on the table [troggle_user]. *)
Lemma GatewayProxy_handler_queries_cases env ctx event :
  queries (snd (run (GatewayProxy.handler ctx event) env)) = [] \/
  exists email,
    queries (snd (run (GatewayProxy.handler ctx event) env)) =
    [userQuery email "troggle_user"].
Proof.
  destruct (json.UnmarshalInto "email"
              (events.APIGatewayProxyRequest.Body event) "")
    as [email [e|]] eqn:Hu.
  - left. rewrite (GatewayProxy_handler_decode_error env ctx event e);
      [reflexivity | rewrite Hu; reflexivity].
  - destruct (env_LoadDefaultConfig env ctx) as [cfg | err] eqn:Hcfg.
    + right. exists email. eapply GatewayProxy_handler_queries; eassumption.
    + left. unfold run. rewrite GatewayProxy_handler_run.
      rewrite (GatewayProxy_Unmarshal_ok _ _ Hu), Hcfg. reflexivity.
Qed.

Lemma DirectReturn_handler_queries_cases env ctx payload :
  queries (snd (run (DirectReturn.handler ctx payload) env)) = [] \/
  exists email,
    queries (snd (run (DirectReturn.handler ctx payload) env)) =
    [userQuery email "troggle_user"].
Proof.
  destruct (json.UnmarshalInto "email" payload "") as [email [e|]] eqn:Hu.
  - left. rewrite (DirectReturn_handler_decode_error env ctx payload e);
      [reflexivity | rewrite Hu; reflexivity].
  - destruct (env_LoadDefaultConfig env ctx) as [cfg | err] eqn:Hcfg.
    + right. exists email. eapply DirectReturn_handler_queries; eassumption.
    + left. unfold run. rewrite DirectReturn_handler_run.
      rewrite (DirectReturn_Unmarshal_ok _ _ Hu), Hcfg. reflexivity.
Qed.

(** C6: whatever the environment and the request, every query a handler
    sends names the table [troggle_user] and the index [email-index]. *)
Theorem C6_query_targets_fixed_table_and_index :
  forall env ctx event payload,
    Forall (fun q => dynamodb.TableName q = Some "troggle_user" /\
                     dynamodb.IndexName q = Some "email-index")
      (queries (snd (run (GatewayProxy.handler ctx event) env))) /\
    Forall (fun q => dynamodb.TableName q = Some "troggle_user" /\
                     dynamodb.IndexName q = Some "email-index")
      (queries (snd (run (DirectReturn.handler ctx payload) env))).
Proof.
  intros env ctx event payload. split.
  - destruct (GatewayProxy_handler_queries_cases env ctx event)
      as [-> | [email ->]]; repeat constructor.
  - destruct (DirectReturn_handler_queries_cases env ctx payload)
      as [-> | [email ->]]; repeat constructor.
Qed.

(** ** The fuel of the JSON parser is enough

    A text that some amount of fuel parses is parsed, to the same value,
    by [fuelFor]: [json.parse] rejects no text for want of fuel. *)

Lemma skipSpace_length s :
  (String.length (json.skipSpace s) <= String.length s)%nat.
Proof.
  induction s as [|c s IH]; cbn; [lia|].
  destruct (json.isSpace c); cbn; lia.
Qed.

Lemma expect_length c s r :
  json.expect c s = Some r -> String.length s = S (String.length r).
Proof.
  destruct s as [|c' s]; cbn; [discriminate|].
  destruct (c' =? c)%char; [|discriminate].
  intros [= ->]. reflexivity.
Qed.

Lemma push_Some c o body rest :
  json.push c o = Some (body, rest) ->
  exists body', o = Some (body', rest).
Proof.
  destruct o as [[b r]|]; cbn; [|discriminate].
  intros [= <- <-]. eauto.
Qed.

Lemma scanString_step st c r :
  json.scanString st (String c r) = None \/
  json.scanString st (String c r) = Some (EmptyString, r) \/
  exists st', json.scanString st (String c r) =
              json.push c (json.scanString st' r).
Proof.
  destruct st as [| | k]; cbn [json.scanString].
  - destruct c as [[] [] [] [] [] [] [] []];
      first [ left; reflexivity
            | right; left; reflexivity
            | right; right; eexists; reflexivity ].
  - destruct c as [[] [] [] [] [] [] [] []];
      first [ left; reflexivity
            | right; right; eexists; reflexivity ].
  - destruct (json.isHex c); [|left; reflexivity].
    destruct k as [|[|k]]; right; right; eexists; reflexivity.
Qed.

Lemma scanString_length s : forall st body r,
  json.scanString st s = Some (body, r) ->
  (String.length r < String.length s)%nat.
Proof.
  induction s as [|c s IH]; intros st body r H; [discriminate|].
  destruct (scanString_step st c s) as [E | [E | [st' E]]];
    rewrite E in H.
  - discriminate.
  - injection H as <- <-. cbn. lia.
  - apply push_Some in H as [body' H]. apply IH in H. cbn. lia.
Qed.

Lemma parseString_length s t r :
  json.parseString s = Some (t, r) ->
  (String.length r < String.length s)%nat.
Proof.
  unfold json.parseString.
  destruct (json.scanString json.InString s) as [[body r']|] eqn:E;
    [|discriminate].
  destruct (json.unquote body); [|discriminate].
  intros [= <- <-]. eapply scanString_length, E.
Qed.

Lemma scanNumber_length s : forall st lit r,
  json.scanNumber st s = Some (lit, r) ->
  (String.length r <= String.length s)%nat.
Proof.
  induction s as [|c s IH]; intros st lit r; cbn [json.scanNumber].
  - destruct (json.numFinal st); [|discriminate].
    intros [= <- <-]. cbn. lia.
  - destruct (json.numStep st c) as [st'|].
    + intros H. apply push_Some in H as [body' H]. apply IH in H.
      cbn. lia.
    + destruct (json.numFinal st); [|discriminate].
      intros [= <- <-]. cbn. lia.
Qed.

Lemma scanNumber_begin_length s lit r :
  json.scanNumber json.NumBegin s = Some (lit, r) ->
  (String.length r < String.length s)%nat.
Proof.
  destruct s as [|c s]; cbn [json.scanNumber json.numFinal];
    [discriminate|].
  destruct (json.numStep json.NumBegin c) as [st'|]; [|discriminate].
  intros H. apply push_Some in H as [body' H].
  apply scanNumber_length in H. cbn. lia.
Qed.

Lemma prefix_drop_length a : forall b,
  prefix a b = true ->
  String.length b = (String.length a + String.length (drop (String.length a) b))%nat.
Proof.
  induction a as [|c a IH]; intros b; [reflexivity|].
  destruct b as [|c' b]; cbn; [discriminate|].
  destruct (ascii_dec c c'); [|discriminate].
  intros H. rewrite (IH b H) at 1. reflexivity.
Qed.

Lemma literal_length lit v s v' r :
  json.literal lit v s = Some (v', r) ->
  String.length s = (String.length lit + String.length r)%nat.
Proof.
  unfold json.literal. destruct (prefix lit s) eqn:E; [|discriminate].
  intros [= <- <-]. apply prefix_drop_length, E.
Qed.

Lemma parseValue_S fuel depth s :
  json.parseValue (S fuel) depth s =
  match json.skipSpace s with
  | EmptyString => None
  | String c r =>
      if (c =? "{")%char then
        if json.maxNestingDepth <? depth + 1 then None
        else
          match json.expect "}" (json.skipSpace r) with
          | Some r' => Some (json.Object [], r')
          | None =>
              match json.parseMembers fuel (depth + 1) r with
              | Some (ms, r') => Some (json.Object ms, r')
              | None => None
              end
          end
      else if (c =? "[")%char then
        if json.maxNestingDepth <? depth + 1 then None
        else
          match json.expect "]" (json.skipSpace r) with
          | Some r' => Some (json.Array [], r')
          | None =>
              match json.parseElements fuel (depth + 1) r with
              | Some (vs, r') => Some (json.Array vs, r')
              | None => None
              end
          end
      else if (c =? dquote)%char then
        match json.parseString r with
        | Some (t, r') => Some (json.Str t, r')
        | None => None
        end
      else if (c =? "t")%char then json.literal "true" (json.Bool true) (String c r)
      else if (c =? "f")%char then json.literal "false" (json.Bool false) (String c r)
      else if (c =? "n")%char then json.literal "null" json.Null (String c r)
      else
        match json.scanNumber json.NumBegin (String c r) with
        | Some (lit, r') => Some (json.Number lit, r')
        | None => None
        end
  end.
Proof. reflexivity. Qed.

Lemma parseElements_S fuel depth s :
  json.parseElements (S fuel) depth s =
  match json.parseValue fuel depth s with
  | Some (v, r) =>
      match json.expect "," (json.skipSpace r) with
      | Some r' =>
          match json.parseElements fuel depth r' with
          | Some (vs, r'') => Some (v :: vs, r'')
          | None => None
          end
      | None =>
          match json.expect "]" (json.skipSpace r) with
          | Some r' => Some ([v], r')
          | None => None
          end
      end
  | None => None
  end.
Proof. reflexivity. Qed.

Lemma parseMembers_S fuel depth s :
  json.parseMembers (S fuel) depth s =
  match json.expect dquote (json.skipSpace s) with
  | Some r =>
      match json.parseString r with
      | Some (key, r1) =>
          match json.expect ":" (json.skipSpace r1) with
          | Some r2 =>
              match json.parseValue fuel depth r2 with
              | Some (v, r3) =>
                  match json.expect "," (json.skipSpace r3) with
                  | Some r4 =>
                      match json.parseMembers fuel depth r4 with
                      | Some (ms, r5) => Some ((key, v) :: ms, r5)
                      | None => None
                      end
                  | None =>
                      match json.expect "}" (json.skipSpace r3) with
                      | Some r4 => Some ([(key, v)], r4)
                      | None => None
                      end
                  end
              | None => None
              end
          | None => None
          end
      | None => None
      end
  | None => None
  end.
Proof. reflexivity. Qed.

Lemma parse_fuel_ok n : valueFuelOk n /\ elementsFuelOk n /\ membersFuelOk n.
Proof.
  unfold valueFuelOk, elementsFuelOk, membersFuelOk.
  induction n as [|n (IHv & IHe & IHm)].
  { split; [|split]; intros d s x r H; discriminate H. }
  split; [|split].
  - intros d s v r H. rewrite parseValue_S in H.
    pose proof (skipSpace_length s) as Hs.
    destruct (json.skipSpace s) as [|c r0] eqn:Es; [discriminate|].
    cbn [String.length] in Hs.
    destruct (c =? "{")%char eqn:E1.
    { destruct (json.maxNestingDepth <? d + 1) eqn:Ed; [discriminate|].
      pose proof (skipSpace_length r0) as Hr0.
      destruct (json.expect "}" (json.skipSpace r0)) as [r'|] eqn:Ex.
      - injection H as <- <-. apply expect_length in Ex as Hx.
        split; [lia|]. intros [|m] Hm; [lia|].
        rewrite parseValue_S, Es, E1, Ed, Ex. reflexivity.
      - destruct (json.parseMembers n (d + 1) r0) as [[ms r']|] eqn:Em;
          [|discriminate].
        injection H as <- <-. destruct (IHm _ _ _ _ Em) as [Hlt Hfuel].
        split; [lia|]. intros [|m] Hm; [lia|].
        rewrite parseValue_S, Es, E1, Ed, Ex, Hfuel by lia. reflexivity. }
    destruct (c =? "[")%char eqn:E2.
    { destruct (json.maxNestingDepth <? d + 1) eqn:Ed; [discriminate|].
      pose proof (skipSpace_length r0) as Hr0.
      destruct (json.expect "]" (json.skipSpace r0)) as [r'|] eqn:Ex.
      - injection H as <- <-. apply expect_length in Ex as Hx.
        split; [lia|]. intros [|m] Hm; [lia|].
        rewrite parseValue_S, Es, E1, E2, Ed, Ex. reflexivity.
      - destruct (json.parseElements n (d + 1) r0) as [[vs r']|] eqn:Em;
          [|discriminate].
        injection H as <- <-. destruct (IHe _ _ _ _ Em) as [Hlt Hfuel].
        split; [lia|]. intros [|m] Hm; [lia|].
        rewrite parseValue_S, Es, E1, E2, Ed, Ex, Hfuel by lia.
        reflexivity. }
    destruct (c =? dquote)%char eqn:E3.
    { destruct (json.parseString r0) as [[t r']|] eqn:Ep; [|discriminate].
      injection H as <- <-. apply parseString_length in Ep as Hp.
      split; [lia|]. intros [|m] Hm; [lia|].
      rewrite parseValue_S, Es, E1, E2, E3, Ep. reflexivity. }
    destruct (c =? "t")%char eqn:E4.
    { apply literal_length in H as Hl. cbn [String.length] in Hl.
      split; [lia|]. intros [|m] Hm; [lia|].
      rewrite parseValue_S, Es, E1, E2, E3, E4. exact H. }
    destruct (c =? "f")%char eqn:E5.
    { apply literal_length in H as Hl. cbn [String.length] in Hl.
      split; [lia|]. intros [|m] Hm; [lia|].
      rewrite parseValue_S, Es, E1, E2, E3, E4, E5. exact H. }
    destruct (c =? "n")%char eqn:E6.
    { apply literal_length in H as Hl. cbn [String.length] in Hl.
      split; [lia|]. intros [|m] Hm; [lia|].
      rewrite parseValue_S, Es, E1, E2, E3, E4, E5, E6. exact H. }
    destruct (json.scanNumber json.NumBegin (String c r0)) as [[lit r']|] eqn:En;
      [|discriminate].
    injection H as <- <-. apply scanNumber_begin_length in En as Hn.
    cbn [String.length] in Hn.
    split; [lia|]. intros [|m] Hm; [lia|].
    rewrite parseValue_S, Es, E1, E2, E3, E4, E5, E6, En. reflexivity.
  - intros d s vs r H. rewrite parseElements_S in H.
    destruct (json.parseValue n d s) as [[v r1]|] eqn:Ev; [|discriminate].
    destruct (IHv _ _ _ _ Ev) as [Hlt1 Hfuel1].
    pose proof (skipSpace_length r1) as Hr1.
    destruct (json.expect "," (json.skipSpace r1)) as [r2|] eqn:Ec.
    + apply expect_length in Ec as Hc.
      destruct (json.parseElements n d r2) as [[vs' r3]|] eqn:Ee;
        [|discriminate].
      injection H as <- <-. destruct (IHe _ _ _ _ Ee) as [Hlt2 Hfuel2].
      split; [lia|]. intros [|m] Hm; [lia|].
      rewrite parseElements_S, Hfuel1, Ec, Hfuel2 by lia. reflexivity.
    + destruct (json.expect "]" (json.skipSpace r1)) as [r2|] eqn:Eb;
        [|discriminate].
      apply expect_length in Eb as Hb. injection H as <- <-.
      split; [lia|]. intros [|m] Hm; [lia|].
      rewrite parseElements_S, Hfuel1, Ec, Eb by lia. reflexivity.
  - intros d s ms r H. rewrite parseMembers_S in H.
    pose proof (skipSpace_length s) as Hs.
    destruct (json.expect dquote (json.skipSpace s)) as [r0|] eqn:Eq;
      [|discriminate].
    apply expect_length in Eq as Hq.
    destruct (json.parseString r0) as [[key r1]|] eqn:Ep; [|discriminate].
    apply parseString_length in Ep as Hp.
    pose proof (skipSpace_length r1) as Hr1.
    destruct (json.expect ":" (json.skipSpace r1)) as [r2|] eqn:Ec;
      [|discriminate].
    apply expect_length in Ec as Hc.
    destruct (json.parseValue n d r2) as [[v r3]|] eqn:Ev; [|discriminate].
    destruct (IHv _ _ _ _ Ev) as [Hlt1 Hfuel1].
    pose proof (skipSpace_length r3) as Hr3.
    destruct (json.expect "," (json.skipSpace r3)) as [r4|] eqn:Ek.
    + apply expect_length in Ek as Hk.
      destruct (json.parseMembers n d r4) as [[ms' r5]|] eqn:Em;
        [|discriminate].
      injection H as <- <-. destruct (IHm _ _ _ _ Em) as [Hlt2 Hfuel2].
      split; [lia|]. intros [|m] Hm; [lia|].
      rewrite parseMembers_S, Eq, Ep, Ec, Hfuel1, Ek, Hfuel2 by lia.
      reflexivity.
    + destruct (json.expect "}" (json.skipSpace r3)) as [r4|] eqn:Eb;
        [|discriminate].
      apply expect_length in Eb as Hb. injection H as <- <-.
      split; [lia|]. intros [|m] Hm; [lia|].
      rewrite parseMembers_S, Eq, Ep, Ec, Hfuel1, Ek, Eb by lia.
      reflexivity.
Qed.

(** If some fuel parses a text, [fuelFor] parses it to the same value. *)
Lemma parseValue_fuelFor n s v r :
  json.parseValue n 0 s = Some (v, r) ->
  json.parseValue (json.fuelFor s) 0 s = Some (v, r).
Proof.
  intros H. destruct (parse_fuel_ok n) as [Hv _].
  destruct (Hv _ _ _ _ H) as [_ Hfuel]. apply Hfuel.
  unfold json.fuelFor. lia.
Qed.

(** [json.parse] is the parser at every larger fuel: more fuel accepts
    no text that [fuelFor] rejects and gives no other value. *)
Lemma parse_fuel_irrelevant n s :
  (json.fuelFor s <= n)%nat ->
  json.parseValue n 0 s = json.parseValue (json.fuelFor s) 0 s.
Proof.
  intros Hn.
  destruct (json.parseValue (json.fuelFor s) 0 s) as [[v r]|] eqn:E.
  - destruct (parse_fuel_ok (json.fuelFor s)) as [Hv _].
    destruct (Hv _ _ _ _ E) as [_ Hfuel]. apply Hfuel.
    unfold json.fuelFor in Hn. lia.
  - destruct (json.parseValue n 0 s) as [[v r]|] eqn:E'; [|reflexivity].
    apply parseValue_fuelFor in E'. congruence.
Qed.

(** The loop of [unquoteBytes] needs no more iterations than the body
    has bytes. *)
Lemma DecodeRune_size c r : (1 <= snd (utf8.DecodeRune (String c r)))%nat.
Proof.
  unfold utf8.DecodeRune.
  repeat match goal with
         | |- context [if ?b then _ else _] => destruct b
         | |- context [match ?x with _ => _ end] => destruct x
         end; cbn; lia.
Qed.

Lemma drop_length k s :
  (String.length (drop k s) <= String.length s - k)%nat.
Proof.
  revert s. induction k as [|k IH]; intros [|c s]; cbn; try lia.
  apply IH.
Qed.

Lemma drop_drop a : forall b s, drop b (drop a s) = drop (a + b) s.
Proof.
  induction a as [|a IH]; intros b s; [reflexivity|].
  destruct s as [|c s]; cbn; [destruct b; reflexivity|]. apply IH.
Qed.

Lemma unquoteLoop_step c r :
  (forall f, json.unquoteLoop (S f) (String c r) = None) \/
  exists pre k,
    (1 <= k)%nat /\
    forall f, json.unquoteLoop (S f) (String c r) =
              json.app_opt pre (json.unquoteLoop f (drop k (String c r))).
Proof.
  assert (Hplain :
    forall c r,
      (forall f, json.unquoteLoop (S f) (String c r) =
         if (byte_val c =? 34) || (byte_val c <? 32) then None
         else if byte_val c <? utf8.RuneSelf then
           json.app_opt (json.byte1 c) (json.unquoteLoop f r)
         else
           let '(rr, size) := utf8.DecodeRune (String c r) in
           json.app_opt (utf8.EncodeRune rr)
             (json.unquoteLoop f (drop size (String c r)))) ->
      (forall f, json.unquoteLoop (S f) (String c r) = None) \/
      exists pre k,
        (1 <= k)%nat /\
        forall f, json.unquoteLoop (S f) (String c r) =
                  json.app_opt pre (json.unquoteLoop f (drop k (String c r)))).
  { clear. intros c r H.
    destruct ((byte_val c =? 34) || (byte_val c <? 32)) eqn:E1.
    - left. intros f. rewrite H. reflexivity.
    - destruct (byte_val c <? utf8.RuneSelf) eqn:E2.
      + right. exists (json.byte1 c), 1%nat. split; [lia|].
        intros f. rewrite H. reflexivity.
      + pose proof (DecodeRune_size c r) as Hsz.
        destruct (utf8.DecodeRune (String c r)) as [rr size] eqn:Ed.
        right. exists (utf8.EncodeRune rr), size. split; [exact Hsz|].
        intros f. rewrite H. reflexivity. }
  destruct (ascii_dec c "\"%char) as [-> | Hc].
  - destruct r as [|e r]; [left; reflexivity|].
    destruct (ascii_dec e "u"%char) as [-> | He].
    + cbn [json.unquoteLoop].
      set (s := String "\" (String "u" r)).
      destruct (json.getu4 s <? 0); [left; reflexivity|].
      destruct (utf16.IsSurrogate (json.getu4 s)).
      * destruct (negb (utf16.DecodeRune (json.getu4 s)
                          (json.getu4 (drop 6 s)) =? utf8.RuneError)).
        -- right. eexists _, 12%nat. split; [lia|]. intros f.
           rewrite (drop_drop 6 6 s). reflexivity.
        -- right. eexists _, 6%nat. split; [lia|]. intros f. reflexivity.
      * right. eexists _, 6%nat. split; [lia|]. intros f. reflexivity.
    + destruct e as [[] [] [] [] [] [] [] []];
        first [ exfalso; apply He; reflexivity
              | left; reflexivity
              | right; eexists _, 2%nat; split; [lia|];
                intros f; reflexivity ].
  - apply Hplain. intros f.
    destruct c as [[] [] [] [] [] [] [] []];
      first [ exfalso; apply Hc; reflexivity | reflexivity ].
Qed.

Lemma unquoteLoop_fuel n : forall s m,
  (String.length s <= n)%nat -> (String.length s <= m)%nat ->
  json.unquoteLoop n s = json.unquoteLoop m s.
Proof.
  induction n as [|n IH]; intros s m Hn Hm.
  - destruct s; [|cbn in Hn; lia]. destruct m; reflexivity.
  - destruct s as [|c r]; [destruct m; reflexivity|].
    destruct m as [|m]; [cbn in Hm; lia|].
    cbn [String.length] in Hn, Hm.
    destruct (unquoteLoop_step c r) as [Hnone | (pre & k & Hk & Hstep)].
    + rewrite !Hnone. reflexivity.
    + rewrite !Hstep. f_equal.
      pose proof (drop_length k (String c r)) as Hd.
      cbn [String.length] in Hd.
      apply IH; lia.
Qed.

(** * Further properties of the handlers *)

(** ** Which status answers which run *)

Lemma DirectReturn_Unmarshal_error data e :
  snd (json.UnmarshalInto "email" data "") = Some e ->
  snd (DirectReturn.Unmarshal data {| DirectReturn.Email := "" |}) = Some e.
Proof.
  unfold DirectReturn.Unmarshal. cbn [DirectReturn.Email].
  destruct (json.UnmarshalInto _ _ _) as [email err]. intros H; exact H.
Qed.

Lemma DirectReturn_handler_status env ctx payload :
  DirectReturn.StatusCode
    (fst (fst (run (DirectReturn.handler ctx payload) env))) =
  match snd (json.UnmarshalInto "email" payload "") with
  | Some _ => 400
  | None =>
      match env_LoadDefaultConfig env ctx with
      | Err _ => 500
      | Ok _ => 200
      end
  end.
Proof.
  destruct (json.UnmarshalInto "email" payload "") as [email [e|]] eqn:Hu;
    cbn [snd].
  - rewrite (DirectReturn_handler_decode_error env ctx payload e);
      [reflexivity | rewrite Hu; reflexivity].
  - destruct (env_LoadDefaultConfig env ctx) as [cfg | err] eqn:Hcfg.
    + rewrite (DirectReturn_handler_probe _ _ _ _ _ Hu Hcfg). reflexivity.
    + unfold run. rewrite DirectReturn_handler_run.
      rewrite (DirectReturn_Unmarshal_ok _ _ Hu), Hcfg. reflexivity.
Qed.

Lemma GatewayProxy_handler_status env ctx event :
  events.APIGatewayProxyResponse.StatusCode
    (fst (fst (run (GatewayProxy.handler ctx event) env))) =
  match snd (json.UnmarshalInto "email"
               (events.APIGatewayProxyRequest.Body event) "") with
  | Some _ => 400
  | None =>
      match env_LoadDefaultConfig env ctx with
      | Err _ => 500
      | Ok _ => 200
      end
  end.
Proof.
  destruct (json.UnmarshalInto "email"
              (events.APIGatewayProxyRequest.Body event) "")
    as [email [e|]] eqn:Hu; cbn [snd].
  - rewrite (GatewayProxy_handler_decode_error env ctx event e);
      [reflexivity | rewrite Hu; reflexivity].
  - destruct (env_LoadDefaultConfig env ctx) as [cfg | err] eqn:Hcfg.
    + rewrite (GatewayProxy_handler_probe _ _ _ _ _ Hu Hcfg). reflexivity.
    + unfold run. rewrite GatewayProxy_handler_run.
      rewrite (GatewayProxy_Unmarshal_ok _ _ Hu), Hcfg. reflexivity.
Qed.

Lemma statusTable_intro env ctx payload status :
  status =
    match snd (json.UnmarshalInto "email" payload "") with
    | Some _ => 400
    | None =>
        match env_LoadDefaultConfig env ctx with
        | Err _ => 500
        | Ok _ => 200
        end
    end ->
  statusTable env ctx payload status /\
  (status = 200 \/ status = 400 \/ status = 500).
Proof.
  intros ->. unfold statusTable.
  destruct (snd (json.UnmarshalInto "email" payload "")) as [e|].
  - repeat split; try (intros H; discriminate H); try congruence;
      try (intros [H _]; discriminate H).
    right; left; reflexivity.
  - destruct (env_LoadDefaultConfig env ctx) as [cfg | err].
    + repeat split; try (intros H; discriminate H); try congruence;
        try (intros [_ [e H]]; discriminate H); eauto.
    + repeat split; try (intros H; discriminate H); try congruence;
        try (intros [_ [e H]]; discriminate H); eauto.
Qed.

(** X1: the status of an answer is 200, 400 or 500, and it is decided in
    this order: 400 exactly when the payload is not decoded, 500 exactly
    when it is decoded and the configuration fails to load, 200 exactly
    when both succeed; the answer of the store has no part in it. *)
Theorem X1_status_decision_table :
  forall env ctx event payload,
    let g := events.APIGatewayProxyResponse.StatusCode
               (fst (fst (run (GatewayProxy.handler ctx event) env))) in
    let d := DirectReturn.StatusCode
               (fst (fst (run (DirectReturn.handler ctx payload) env))) in
    statusTable env ctx (events.APIGatewayProxyRequest.Body event) g /\
    (g = 200 \/ g = 400 \/ g = 500) /\
    statusTable env ctx payload d /\
    (d = 200 \/ d = 400 \/ d = 500).
Proof.
  intros env ctx event payload g d.
  destruct (statusTable_intro env ctx
              (events.APIGatewayProxyRequest.Body event) g
              (GatewayProxy_handler_status env ctx event)) as [Hg Hg'].
  destruct (statusTable_intro env ctx payload d
              (DirectReturn_handler_status env ctx payload)) as [Hd Hd'].
  split; [exact Hg|]. split; [exact Hg'|]. split; [exact Hd | exact Hd'].
Qed.

(** ** The two versions agree *)

Lemma UserExists_versions_agree env email db tableName t :
  GatewayProxy.UserExists email db tableName env t =
  (fst (fst (DirectReturn.UserExists email db tableName env t)),
   snd (DirectReturn.UserExists email db tableName env t)).
Proof.
  rewrite GatewayProxy_UserExists_run, DirectReturn_UserExists_run.
  cbv zeta.
  destruct (env_Query env db context.TODO _) as [out | err];
    [destruct (len (dynamodb.Items out) >? 0)|]; reflexivity.
Qed.

Lemma GatewayProxy_handler_as_direct env ctx event :
  run (GatewayProxy.handler ctx event) env =
  ((proxyOf (fst (fst (run (DirectReturn.handler ctx
                              (events.APIGatewayProxyRequest.Body event))
                         env))), None),
   snd (run (DirectReturn.handler ctx
               (events.APIGatewayProxyRequest.Body event)) env)).
Proof.
  unfold run. rewrite GatewayProxy_handler_run, DirectReturn_handler_run.
  unfold GatewayProxy.Unmarshal, DirectReturn.Unmarshal.
  cbn [GatewayProxy.Email DirectReturn.Email].
  destruct (json.UnmarshalInto "email" _ "") as [email' [e|]];
    [reflexivity|].
  destruct (env_LoadDefaultConfig env ctx) as [cfg | err];
    [|reflexivity].
  cbn [GatewayProxy.Email DirectReturn.Email].
  rewrite UserExists_versions_agree.
  destruct (DirectReturn.UserExists _ _ _ env _) as [[found msg] t'].
  reflexivity.
Qed.

(** X2: the two versions of the program are one program behind two
    shapes of answer.  For the same payload, context and environment they
    make the same calls in the same order, and the answer of the
    gateway-proxy handler is the answer of the direct-return handler in
    proxy shape: the same status, with the JSON encoding of [exists] as
    the body of a 200 and the message as the body otherwise.  The two
    versions of [UserExists] return the same boolean after the same
    calls. *)
Theorem X2_versions_agree :
  forall env ctx event email db tableName,
    fst (fst (run (GatewayProxy.handler ctx event) env)) =
      proxyOf (fst (fst (run (DirectReturn.handler ctx
                                (events.APIGatewayProxyRequest.Body event))
                           env))) /\
    snd (run (GatewayProxy.handler ctx event) env) =
      snd (run (DirectReturn.handler ctx
                  (events.APIGatewayProxyRequest.Body event)) env) /\
    fst (run (GatewayProxy.UserExists email db tableName) env) =
      fst (fst (run (DirectReturn.UserExists email db tableName) env)) /\
    snd (run (GatewayProxy.UserExists email db tableName) env) =
      snd (run (DirectReturn.UserExists email db tableName) env).
Proof.
  intros env ctx event email db tableName.
  rewrite GatewayProxy_handler_as_direct. cbn [fst snd].
  unfold run. rewrite UserExists_versions_agree.
  repeat split.
Qed.

(** ** The answer when the store answers *)

(** X3: when the payload is decoded, the configuration loads and the
    store answers the query with a page, the handlers answer status 200
    with a nil error, [exists] telling whether the page has an item, and
    in the direct-return version the message "User exists" or "User does
    not exist" to match. *)
Theorem X3_answer_follows_the_page :
  forall env ctx event email cfg out,
    json.UnmarshalInto "email" (events.APIGatewayProxyRequest.Body event) ""
      = (email, None) ->
    env_LoadDefaultConfig env ctx = Ok cfg ->
    env_Query env (dynamodb.mkClient cfg) context.TODO
      (userQuery email "troggle_user") = Ok out ->
    let found := len (dynamodb.Items out) >? 0 in
    fst (run (DirectReturn.handler ctx
                (events.APIGatewayProxyRequest.Body event)) env) =
      ({| DirectReturn.StatusCode := 200;
          DirectReturn.Exists := found;
          DirectReturn.Message :=
            if found then "User exists" else "User does not exist" |},
       None) /\
    fst (run (GatewayProxy.handler ctx event) env) =
      (proxyResponse 200
         (GatewayProxy.Marshal {| GatewayProxy.Exists := found |}), None).
Proof.
  intros env ctx event email cfg out Hdec Hcfg Hq found.
  rewrite (DirectReturn_handler_probe _ _ _ _ _ Hdec Hcfg).
  rewrite (GatewayProxy_handler_probe _ _ _ _ _ Hdec Hcfg).
  rewrite GatewayProxy_UserExists_run, DirectReturn_UserExists_run.
  cbv zeta. rewrite Hq. subst found.
  destruct (len (dynamodb.Items out) >? 0); split; reflexivity.
Qed.

Lemma X3_witness :
  fst (run (DirectReturn.handler context.Background
              (objectPayload "email" "alice@example.com")) sampleEnv) =
  ({| DirectReturn.StatusCode := 200;
      DirectReturn.Exists := true;
      DirectReturn.Message := "User exists" |}, None).
Proof.
  apply (X3_answer_follows_the_page sampleEnv context.Background
           (proxyRequest (objectPayload "email" "alice@example.com"))
           "alice@example.com" sampleConfig
           {| dynamodb.Items := [sampleItem "alice@example.com"];
              dynamodb.Count := 1;
              dynamodb.ScannedCount := 1;
              dynamodb.LastEvaluatedKey := [] |}).
  - vm_compute. reflexivity.
  - reflexivity.
  - reflexivity.
Defined.

(** ** What the gateway-proxy handler reads of its event *)

(** X5: the gateway-proxy handler reads the body of its event and nothing
    else: two events with the same body, whatever their path, method,
    headers and base64 flag, get the same answer after the same calls.
    In particular a body flagged as base64-encoded is decoded as it
    stands. *)
Theorem X5_only_the_body_is_read :
  forall env ctx event1 event2 t,
    events.APIGatewayProxyRequest.Body event1 =
    events.APIGatewayProxyRequest.Body event2 ->
    GatewayProxy.handler ctx event1 env t =
    GatewayProxy.handler ctx event2 env t.
Proof.
  intros env ctx event1 event2 t H.
  rewrite !GatewayProxy_handler_run, H. reflexivity.
Qed.

Lemma X5_witness :
  run (GatewayProxy.handler context.Background
         {| events.APIGatewayProxyRequest.Resource := "/other";
            events.APIGatewayProxyRequest.Path := "/other";
            events.APIGatewayProxyRequest.HTTPMethod := "DELETE";
            events.APIGatewayProxyRequest.Headers :=
              [("Content-Type", "text/plain")];
            events.APIGatewayProxyRequest.Body :=
              objectPayload "email" "alice@example.com";
            events.APIGatewayProxyRequest.IsBase64Encoded := true |})
    sampleEnv =
  run (GatewayProxy.handler context.Background
         (proxyRequest (objectPayload "email" "alice@example.com")))
    sampleEnv.
Proof.
  unfold run. apply X5_only_the_body_is_read. reflexivity.
Defined.

(** ** The calls of a run *)

(** The three courses a run can take, with the calls of each. *)
Lemma DirectReturn_handler_trace_cases env ctx payload :
  let t := snd (run (DirectReturn.handler ctx payload) env) in
  (snd (json.UnmarshalInto "email" payload "") <> None /\ t = []) \/
  (exists err,
      env_LoadDefaultConfig env ctx = Err err /\
      t = [EvLoadDefaultConfig ctx;
           EvPrintf "Error loading AWS config: %v" [ArgError err]]) \/
  (exists email cfg fmt args,
      json.UnmarshalInto "email" payload "" = (email, None) /\
      env_LoadDefaultConfig env ctx = Ok cfg /\
      t = [EvLoadDefaultConfig ctx;
           EvNewFromConfig cfg;
           EvPrintf "Checking if user exists: %s in table %s"
             [ArgString email; ArgString "troggle_user"];
           EvQuery (dynamodb.mkClient cfg) context.TODO
             (userQuery email "troggle_user");
           EvPrintf fmt args]).
Proof.
  cbv zeta.
  destruct (json.UnmarshalInto "email" payload "") as [email [e|]] eqn:Hu.
  - left. split; [discriminate|].
    rewrite (DirectReturn_handler_decode_error env ctx payload e);
      [reflexivity | rewrite Hu; reflexivity].
  - right. unfold run. rewrite DirectReturn_handler_run.
    rewrite (DirectReturn_Unmarshal_ok _ _ Hu).
    destruct (env_LoadDefaultConfig env ctx) as [cfg | err] eqn:Hcfg.
    + right. cbn [app DirectReturn.Email].
      rewrite DirectReturn_UserExists_run. cbv zeta.
      destruct (env_Query env _ context.TODO _) as [out | err];
        [destruct (len (dynamodb.Items out) >? 0)|];
        cbn [fst snd app];
        exists email, cfg; eexists _, _; repeat split; reflexivity.
    + left. exists err. split; reflexivity.
Qed.

(** X6: the context of the invocation goes to the configuration loader
    and no further.  In every run the configuration is loaded with the
    context the handler was given, a client is built only from the
    configuration that was loaded, and the query is sent to that client
    with [context.TODO]: a deadline or cancellation carried by the
    invocation's context never reaches the store call. *)
Theorem X6_context_stops_at_the_loader :
  forall env ctx event payload,
    Forall (callOk env ctx)
      (snd (run (GatewayProxy.handler ctx event) env)) /\
    Forall (callOk env ctx)
      (snd (run (DirectReturn.handler ctx payload) env)).
Proof.
  assert (H : forall env ctx payload,
             Forall (callOk env ctx)
               (snd (run (DirectReturn.handler ctx payload) env))).
  { intros env ctx payload.
    destruct (DirectReturn_handler_trace_cases env ctx payload)
      as [[_ ->] | [(err & Hcfg & ->)
                   | (email & cfg & fmt & args & Hu & Hcfg & ->)]];
      repeat constructor; cbn; auto. }
  intros env ctx event payload. split; [|apply H].
  rewrite GatewayProxy_handler_as_direct. cbn [snd]. apply H.
Qed.

(** X7: the email reaches the store as a bound value and in no other
    way.  Every query a handler sends has the fixed key condition
    [email = :email] and binds [:email] to a string value; it sets no
    filter, no limit and no start key, whatever bytes the email holds. *)
Theorem X7_email_is_a_bound_value :
  forall env ctx event payload,
    Forall bindsEmail
      (queries (snd (run (GatewayProxy.handler ctx event) env))) /\
    Forall bindsEmail
      (queries (snd (run (DirectReturn.handler ctx payload) env))).
Proof.
  assert (H : forall email tableName, bindsEmail (userQuery email tableName)).
  { intros email tableName. unfold bindsEmail, userQuery. cbn.
    repeat split. exists email. reflexivity. }
  intros env ctx event payload. split.
  - destruct (GatewayProxy_handler_queries_cases env ctx event)
      as [-> | [email ->]]; repeat constructor. apply H.
  - destruct (DirectReturn_handler_queries_cases env ctx payload)
      as [-> | [email ->]]; repeat constructor. apply H.
Qed.

(** ** What is written to the log *)

(** X8: a failure of the store is written to the log with its error.
    When the payload is decoded, the configuration loads and the query
    returns an error, the calls of the run are, in order: loading the
    configuration, building the client, the log line naming the email and
    the table, the query, and the log line "Error fetching item from
    DynamoDB" carrying the error the query returned. *)
Theorem X8_store_failure_is_logged :
  forall env ctx event email cfg err,
    json.UnmarshalInto "email" (events.APIGatewayProxyRequest.Body event) ""
      = (email, None) ->
    env_LoadDefaultConfig env ctx = Ok cfg ->
    env_Query env (dynamodb.mkClient cfg) context.TODO
      (userQuery email "troggle_user") = Err err ->
    let calls :=
      [EvLoadDefaultConfig ctx;
       EvNewFromConfig cfg;
       EvPrintf "Checking if user exists: %s in table %s"
         [ArgString email; ArgString "troggle_user"];
       EvQuery (dynamodb.mkClient cfg) context.TODO
         (userQuery email "troggle_user");
       EvPrintf "Error fetching item from DynamoDB: %v" [ArgError err]] in
    snd (run (GatewayProxy.handler ctx event) env) = calls /\
    snd (run (DirectReturn.handler ctx
                (events.APIGatewayProxyRequest.Body event)) env) = calls.
Proof.
  intros env ctx event email cfg err Hdec Hcfg Hq calls.
  rewrite GatewayProxy_handler_as_direct. cbn [snd].
  assert (H : snd (run (DirectReturn.handler ctx
                          (events.APIGatewayProxyRequest.Body event)) env)
              = calls).
  { unfold run. rewrite DirectReturn_handler_run.
    rewrite (DirectReturn_Unmarshal_ok _ _ Hdec), Hcfg.
    cbn [app DirectReturn.Email].
    rewrite DirectReturn_UserExists_run. cbv zeta. rewrite Hq.
    reflexivity. }
  split; exact H.
Qed.

Lemma X8_witness :
  In (EvPrintf "Error fetching item from DynamoDB: %v"
        [ArgError (OtherError "RequestError: send request failed")])
     (snd (run (DirectReturn.handler context.Background
                  (objectPayload "email" "alice@example.com"))
             storeDownEnv)).
Proof.
  destruct (X8_store_failure_is_logged storeDownEnv context.Background
              (proxyRequest (objectPayload "email" "alice@example.com"))
              "alice@example.com" sampleConfig
              (OtherError "RequestError: send request failed"))
    as [_ H].
  - vm_compute. reflexivity.
  - reflexivity.
  - reflexivity.
  - cbn [proxyRequest events.APIGatewayProxyRequest.Body] in H.
    rewrite H. cbn. tauto.
Defined.

(** X9: a failure to load the configuration is written to the log with
    its error, and it ends the run: the calls are loading the
    configuration and the log line "Error loading AWS config" carrying
    the loader's error. *)
Theorem X9_config_failure_is_logged :
  forall env ctx event err,
    snd (json.UnmarshalInto "email"
           (events.APIGatewayProxyRequest.Body event) "") = None ->
    env_LoadDefaultConfig env ctx = Err err ->
    snd (run (GatewayProxy.handler ctx event) env) =
      [EvLoadDefaultConfig ctx;
       EvPrintf "Error loading AWS config: %v" [ArgError err]] /\
    snd (run (DirectReturn.handler ctx
                (events.APIGatewayProxyRequest.Body event)) env) =
      [EvLoadDefaultConfig ctx;
       EvPrintf "Error loading AWS config: %v" [ArgError err]].
Proof.
  intros env ctx event err Hdec Hcfg.
  rewrite GatewayProxy_handler_as_direct. cbn [snd].
  destruct (json.UnmarshalInto "email"
              (events.APIGatewayProxyRequest.Body event) "")
    as [email e] eqn:Hu.
  cbn in Hdec. subst e.
  unfold run. rewrite DirectReturn_handler_run.
  rewrite (DirectReturn_Unmarshal_ok _ _ Hu), Hcfg.
  split; reflexivity.
Qed.

Lemma X9_witness :
  snd (run (DirectReturn.handler context.Background
              (objectPayload "email" "alice@example.com")) noConfigEnv) =
  [EvLoadDefaultConfig context.Background;
   EvPrintf "Error loading AWS config: %v"
     [ArgError (OtherError "failed to load shared config")]].
Proof.
  apply (X9_config_failure_is_logged noConfigEnv context.Background
           (proxyRequest (objectPayload "email" "alice@example.com"))
           (OtherError "failed to load shared config")).
  - vm_compute. reflexivity.
  - reflexivity.
Defined.

(** ** The body of the gateway-proxy answer *)

Lemma Server_error_is_not_json : json.parse "Server error" = None.
Proof. vm_compute. reflexivity. Qed.

Lemma parse_Marshal r :
  json.parse (GatewayProxy.Marshal r) =
  Some (json.Object [("exists", json.Bool (GatewayProxy.Exists r))]).
Proof. destruct r as [[|]]; vm_compute; reflexivity. Qed.

(** X10: the body of a gateway-proxy answer is JSON exactly when the
    status is 200.  The body of a 200 parses back to an object with the
    single member [exists], a boolean; the body of a 400 or a 500 is no
    JSON text at all, so a client that parses every body fails on
    them. *)
Theorem X10_body_is_json_only_for_200 :
  forall env ctx event,
    let resp := fst (fst (run (GatewayProxy.handler ctx event) env)) in
    (events.APIGatewayProxyResponse.StatusCode resp = 200 ->
     exists b,
       json.parse (events.APIGatewayProxyResponse.Body resp) =
       Some (json.Object [("exists", json.Bool b)])) /\
    (events.APIGatewayProxyResponse.StatusCode resp <> 200 ->
     json.parse (events.APIGatewayProxyResponse.Body resp) = None).
Proof.
  intros env ctx event resp. subst resp. unfold run.
  rewrite GatewayProxy_handler_run.
  destruct (GatewayProxy.Unmarshal _ _) as [req [e|]].
  - cbn. split; [discriminate|]. intros _. apply Invalid_request_is_not_json.
  - destruct (env_LoadDefaultConfig env ctx) as [cfg | err].
    + destruct (GatewayProxy.UserExists _ _ _ env _) as [found t'].
      cbn [fst proxyResponse events.APIGatewayProxyResponse.StatusCode
             events.APIGatewayProxyResponse.Body].
      split; [|intros H; exfalso; apply H; reflexivity].
      intros _. exists found. apply parse_Marshal.
    + cbn. split; [discriminate|]. intros _. apply Server_error_is_not_json.
Qed.

(** ** What the probe always does *)

(** X11: whatever [db.Query] returns, a page with items, a page without,
    or an error, [UserExists] calls it exactly once: the program has no
    loop around the call and does not call it again after an error.  (What
    the client does inside that one call, its own retries included, is
    not a call of the program.)  A run makes three calls: the log line
    that names the email and the table, written before the query, the
    call of [db.Query] with [context.TODO], and one log line for the
    outcome; both versions make the same three. *)
Theorem X11_one_Query_call_whatever_it_returns :
  forall env email db tableName,
    exists fmt args,
      snd (run (GatewayProxy.UserExists email db tableName) env) =
        [EvPrintf "Checking if user exists: %s in table %s"
           [ArgString email; ArgString tableName];
         EvQuery db context.TODO (userQuery email tableName);
         EvPrintf fmt args] /\
      snd (run (DirectReturn.UserExists email db tableName) env) =
        [EvPrintf "Checking if user exists: %s in table %s"
           [ArgString email; ArgString tableName];
         EvQuery db context.TODO (userQuery email tableName);
         EvPrintf fmt args].
Proof.
  intros env email db tableName. unfold run.
  rewrite GatewayProxy_UserExists_run, DirectReturn_UserExists_run.
  cbv zeta.
  destruct (env_Query env db context.TODO _) as [out | err];
    [destruct (len (dynamodb.Items out) >? 0)|];
    eexists _, _; split; reflexivity.
Qed.

(** ** The fields of the direct-return answer *)

(** X12: in every answer of the direct-return handler the three fields
    fit together.  [exists] is true exactly when the message is "User
    exists", and then the status is 200; a status of 200 carries "User
    exists" or "User does not exist" according to [exists]; the message
    is always one of the four literals of the program. *)
Theorem X12_fields_fit_together :
  forall env ctx payload,
    let resp := fst (fst (run (DirectReturn.handler ctx payload) env)) in
    (DirectReturn.Exists resp = true <->
     DirectReturn.Message resp = "User exists") /\
    (DirectReturn.Exists resp = true -> DirectReturn.StatusCode resp = 200) /\
    (DirectReturn.StatusCode resp = 200 ->
     DirectReturn.Message resp =
     if DirectReturn.Exists resp then "User exists"
     else "User does not exist") /\
    (DirectReturn.Message resp = "User exists" \/
     DirectReturn.Message resp = "User does not exist" \/
     DirectReturn.Message resp = "Invalid request" \/
     DirectReturn.Message resp = "Server error").
Proof.
  intros env ctx payload resp. subst resp. unfold run.
  rewrite DirectReturn_handler_run.
  destruct (DirectReturn.Unmarshal _ _) as [req [e|]].
  - cbn. repeat split; try discriminate. tauto.
  - destruct (env_LoadDefaultConfig env ctx) as [cfg | err].
    + rewrite DirectReturn_UserExists_run. cbv zeta.
      destruct (env_Query env _ context.TODO _) as [out | err];
        [destruct (len (dynamodb.Items out) >? 0)|];
        cbn; repeat split; try discriminate; tauto.
    + cbn. repeat split; try discriminate. tauto.
Qed.

(** ** The error handed back by the gateway-proxy handler *)

(** X13: the gateway-proxy handler hands the invocation runtime a nil
    error in every run: a payload that is not decoded, a configuration
    that does not load and a store that fails all end in an ordinary
    answer. *)
Theorem X13_proxy_handler_never_returns_an_error :
  forall env ctx event,
    snd (fst (run (GatewayProxy.handler ctx event) env)) = None.
Proof.
  intros env ctx event.
  rewrite GatewayProxy_handler_as_direct. reflexivity.
Qed.

(** ** A member of the wrong type *)

Lemma objectInto_saved name ms : forall cur e,
  snd (json.objectInto name ms cur (Some e)) = Some e.
Proof.
  induction ms as [| [key v] ms IH]; intros cur e; cbn; [reflexivity|].
  destruct (json.matchField name key); [|apply IH].
  destruct v; cbn; apply IH.
Qed.

Lemma objectInto_misfit name ms : forall cur saved,
  existsb (misfit name) ms = true ->
  exists e, snd (json.objectInto name ms cur saved) = Some e.
Proof.
  induction ms as [| [key v] ms IH]; intros cur saved H; cbn in H;
    [discriminate|].
  cbn [json.objectInto].
  apply orb_true_iff in H as [H | H].
  - unfold misfit in H. cbn [fst snd] in H.
    apply andb_true_iff in H as [Hkey Hv]. rewrite Hkey.
    destruct v; try discriminate; cbn [json.storeString];
      destruct saved as [e0|]; cbn [json.saveError];
      eexists; apply objectInto_saved.
  - destruct (json.matchField name key); [|apply IH, H].
    destruct (json.storeString v cur saved). apply IH, H.
Qed.

(** X14: an email of the wrong type rejects the whole payload.  When the
    payload is a JSON object with a member whose key matches [email] and
    whose value is neither a string nor [null], be it a number, a
    boolean, an array or an object, the handlers answer 400 "Invalid
    request" and make no call, wherever the member stands and whatever
    the other members are, a later well-typed [email] included. *)
Theorem X14_mistyped_email_answers_400 :
  forall env ctx event ms,
    json.parse (events.APIGatewayProxyRequest.Body event) =
      Some (json.Object ms) ->
    existsb (misfit "email") ms = true ->
    fst (fst (run (DirectReturn.handler ctx
                     (events.APIGatewayProxyRequest.Body event)) env)) =
      {| DirectReturn.StatusCode := 400;
         DirectReturn.Exists := false;
         DirectReturn.Message := "Invalid request" |} /\
    snd (run (DirectReturn.handler ctx
                (events.APIGatewayProxyRequest.Body event)) env) = [] /\
    run (GatewayProxy.handler ctx event) env =
      ((proxyResponse 400 "Invalid request", None), []).
Proof.
  intros env ctx event ms Hparse Hmis.
  destruct (objectInto_misfit "email" ms "" None Hmis) as [e He].
  assert (Hs : snd (json.UnmarshalInto "email"
                      (events.APIGatewayProxyRequest.Body event) "") = Some e).
  { unfold json.UnmarshalInto. rewrite Hparse. exact He. }
  rewrite (DirectReturn_handler_decode_error env ctx _ e Hs).
  rewrite (GatewayProxy_handler_decode_error env ctx _ e Hs).
  repeat split.
Qed.

Lemma X14_witness :
  snd (run (DirectReturn.handler context.Background
              ("{" ++ quoted "email" ++ ":5," ++ quoted "EMAIL" ++ ":"
                   ++ quoted "alice@example.com" ++ "}")) sampleEnv) = [].
Proof.
  apply (X14_mistyped_email_answers_400 sampleEnv context.Background
           (proxyRequest
              ("{" ++ quoted "email" ++ ":5," ++ quoted "EMAIL" ++ ":"
                   ++ quoted "alice@example.com" ++ "}"))
           [("email", json.Number "5");
            ("EMAIL", json.Str "alice@example.com")]).
  - vm_compute. reflexivity.
  - vm_compute. reflexivity.
Defined.

(** ** A plain email is looked up as it was sent *)

Lemma quoted_app k rest :
  quoted k ++ rest = String dquote (k ++ String dquote rest).
Proof.
  unfold quoted. cbn. f_equal.
  induction k as [|c k IH]; cbn; [reflexivity|]. rewrite IH. reflexivity.
Qed.

Lemma scanString_plain_step c r :
  isPlain c = true ->
  json.scanString json.InString (String c r) =
  json.push c (json.scanString json.InString r).
Proof.
  intros H.
  destruct c as [[] [] [] [] [] [] [] []];
    try (vm_compute in H; discriminate H); reflexivity.
Qed.

Lemma scanString_plain v rest :
  allBytes isPlain v = true ->
  json.scanString json.InString (v ++ String dquote rest) = Some (v, rest).
Proof.
  induction v as [|c v IH]; cbn [allBytes append]; intros H.
  - reflexivity.
  - apply andb_true_iff in H as [Hc Hv].
    rewrite (scanString_plain_step _ _ Hc), (IH Hv). reflexivity.
Qed.

Lemma unquoteLoop_plain_step c f r :
  isPlain c = true ->
  json.unquoteLoop (S f) (String c r) =
  json.app_opt (json.byte1 c) (json.unquoteLoop f r).
Proof.
  intros H.
  destruct c as [[] [] [] [] [] [] [] []];
    try (vm_compute in H; discriminate H); reflexivity.
Qed.

Lemma unquote_plain v :
  allBytes isPlain v = true -> json.unquote v = Some v.
Proof.
  unfold json.unquote.
  induction v as [|c v IH]; cbn [allBytes String.length]; intros H.
  - reflexivity.
  - apply andb_true_iff in H as [Hc Hv].
    rewrite (unquoteLoop_plain_step _ _ _ Hc), (IH Hv). reflexivity.
Qed.

Lemma parseString_plain v rest :
  allBytes isPlain v = true ->
  json.parseString (v ++ String dquote rest) = Some (v, rest).
Proof.
  intros H. unfold json.parseString.
  rewrite (scanString_plain _ _ H), (unquote_plain _ H). reflexivity.
Qed.

(** The object with one member, a plain string under a plain key, parses
    to that member. *)
Lemma parse_objectPayload k v :
  allBytes isPlain k = true ->
  allBytes isPlain v = true ->
  json.parse (objectPayload k v) = Some (json.Object [(k, json.Str v)]).
Proof.
  intros Hk Hv.
  assert (H : json.parseValue 3 0 (objectPayload k v) =
              Some (json.Object [(k, json.Str v)], EmptyString)).
  { unfold objectPayload. rewrite !quoted_app.
    rewrite parseValue_S.
    cbn [append json.skipSpace json.isSpace Ascii.eqb Bool.eqb json.expect].
    change (json.maxNestingDepth <? 0 + 1) with false. cbv iota.
    rewrite parseMembers_S.
    cbn [json.skipSpace json.isSpace Ascii.eqb Bool.eqb json.expect].
    rewrite (parseString_plain k _ Hk).
    cbn [json.skipSpace json.isSpace Ascii.eqb Bool.eqb json.expect].
    rewrite parseValue_S.
    cbn [json.skipSpace json.isSpace Ascii.eqb Bool.eqb json.expect].
    rewrite (parseString_plain v _ Hv).
    reflexivity. }
  unfold json.parse. rewrite (parseValue_fuelFor _ _ _ _ H). reflexivity.
Qed.


Lemma UnmarshalInto_objectPayload k v :
  allBytes isPlain k = true ->
  allBytes isPlain v = true ->
  json.matchField "email" k = true ->
  json.UnmarshalInto "email" (objectPayload k v) "" = (v, None).
Proof.
  intros Hk Hv Hm. unfold json.UnmarshalInto.
  rewrite (parse_objectPayload _ _ Hk Hv).
  cbn [json.valueInto json.objectInto]. rewrite Hm. reflexivity.
Qed.

(** X4: a plain email is looked up as it was sent.  When the payload is
    the object with one member, the email as a string of printable ASCII
    without quote or backslash under a key that is [email] in any case of
    its letters, and the configuration loads, the handler sends the store
    exactly one query, and the value it binds is that email, byte for
    byte: nothing is trimmed, folded to lower case or otherwise
    normalised on the way. *)
Theorem X4_plain_email_is_looked_up_verbatim :
  forall env ctx key email cfg,
    allBytes isPlain key = true ->
    allBytes isPlain email = true ->
    json.matchField "email" key = true ->
    env_LoadDefaultConfig env ctx = Ok cfg ->
    queries (snd (run (DirectReturn.handler ctx (objectPayload key email))
                    env)) =
      [userQuery email "troggle_user"] /\
    queries (snd (run (GatewayProxy.handler ctx
                         (proxyRequest (objectPayload key email))) env)) =
      [userQuery email "troggle_user"].
Proof.
  intros env ctx key email cfg Hk Hv Hm Hcfg.
  pose proof (UnmarshalInto_objectPayload _ _ Hk Hv Hm) as Hdec.
  split.
  - eapply DirectReturn_handler_queries; eassumption.
  - eapply GatewayProxy_handler_queries; [exact Hdec | exact Hcfg].
Qed.

Lemma X4_witness :
  queries (snd (run (DirectReturn.handler context.Background
                       (objectPayload "EMail" " Alice@Example.COM "))
                  sampleEnv)) =
  [userQuery " Alice@Example.COM " "troggle_user"].
Proof.
  apply (X4_plain_email_is_looked_up_verbatim sampleEnv context.Background
           "EMail" " Alice@Example.COM " sampleConfig).
  - vm_compute. reflexivity.
  - vm_compute. reflexivity.
  - vm_compute. reflexivity.
  - reflexivity.
Defined.

(** ** A repeated email member *)

Lemma objectInto_app name ms1 : forall ms2 cur saved,
  json.objectInto name (ms1 ++ ms2) cur saved =
  let '(cur', saved') := json.objectInto name ms1 cur saved in
  json.objectInto name ms2 cur' saved'.
Proof.
  induction ms1 as [| [key v] ms1 IH]; intros ms2 cur saved;
    cbn [app json.objectInto].
  - reflexivity.
  - destruct (json.matchField name key); [|apply IH].
    destruct (json.storeString v cur saved). apply IH.
Qed.

Lemma objectInto_no_misfit name ms : forall cur,
  existsb (misfit name) ms = false ->
  snd (json.objectInto name ms cur None) = None.
Proof.
  induction ms as [| [key v] ms IH]; intros cur H; cbn in H |- *;
    [reflexivity|].
  apply orb_false_iff in H as [H Hrest].
  unfold misfit in H. cbn [fst snd] in H.
  destruct (json.matchField name key); [|apply IH, Hrest].
  destruct v; cbn in H; try discriminate; cbn [json.storeString];
    apply IH, Hrest.
Qed.

(** X15: when the email is given more than once, the last one is looked
    up.  If the payload is an object whose last member has a key matching
    [email] and a string value, and no earlier member is an [email] of
    the wrong type, the payload is decoded and the one query sent binds
    the string of that last member, whatever emails earlier members
    gave. *)
Theorem X15_last_email_member_wins :
  forall env ctx event ms key email cfg,
    json.parse (events.APIGatewayProxyRequest.Body event) =
      Some (json.Object (ms ++ [(key, json.Str email)])) ->
    existsb (misfit "email") ms = false ->
    json.matchField "email" key = true ->
    env_LoadDefaultConfig env ctx = Ok cfg ->
    queries (snd (run (DirectReturn.handler ctx
                         (events.APIGatewayProxyRequest.Body event)) env)) =
      [userQuery email "troggle_user"] /\
    queries (snd (run (GatewayProxy.handler ctx event) env)) =
      [userQuery email "troggle_user"].
Proof.
  intros env ctx event ms key email cfg Hparse Hfit Hkey Hcfg.
  assert (Hdec : json.UnmarshalInto "email"
                   (events.APIGatewayProxyRequest.Body event) "" =
                 (email, None)).
  { unfold json.UnmarshalInto. rewrite Hparse. cbn [json.valueInto].
    rewrite objectInto_app.
    pose proof (objectInto_no_misfit "email" ms "" Hfit) as Hnone.
    destruct (json.objectInto "email" ms "" None) as [cur saved].
    cbn in Hnone. subst saved.
    cbn [json.objectInto]. rewrite Hkey. reflexivity. }
  split.
  - eapply DirectReturn_handler_queries; eassumption.
  - eapply GatewayProxy_handler_queries; eassumption.
Qed.

Lemma X15_witness :
  queries (snd (run (DirectReturn.handler context.Background
                       ("{" ++ quoted "email" ++ ":" ++ quoted "bob@example.com"
                            ++ "," ++ quoted "Email" ++ ":"
                            ++ quoted "alice@example.com" ++ "}"))
                  sampleEnv)) =
  [userQuery "alice@example.com" "troggle_user"].
Proof.
  apply (X15_last_email_member_wins sampleEnv context.Background
           (proxyRequest
              ("{" ++ quoted "email" ++ ":" ++ quoted "bob@example.com"
                   ++ "," ++ quoted "Email" ++ ":"
                   ++ quoted "alice@example.com" ++ "}"))
           [("email", json.Str "bob@example.com")]
           "Email" "alice@example.com" sampleConfig).
  - vm_compute. reflexivity.
  - vm_compute. reflexivity.
  - vm_compute. reflexivity.
  - reflexivity.
Defined.

(** * Two invocations against one store *)






(** A writing call does change the sample store: the invariance above is
    a fact about the calls the handlers make. *)
Lemma storeAfter_sample_write :
  storeAfter sampleStore ["alice@example.com"]
    [EvWrite (dynamodb.mkClient sampleConfig) context.TODO "PutItem"
       (Some "troggle_user")
       [("email", types.AttributeValueMemberS "bob@example.com")]] =
  ["bob@example.com"; "alice@example.com"].
Proof. reflexivity. Qed.


